(** * The markdown converter of Notion-mcp

    A shallow embedding of [src/markdown_converter.py] (class
    [MarkdownConverter]): the parser [parse_markdown_to_blocks], the
    serializer [convert_blocks_to_markdown] and the helper
    [_extract_text_content], followed by the properties the specification
    states about them; then [extract_uuid] and the arguments of the tool
    calls of [src/notion_mcp_client.py], and [_markdown_to_blocks] and the
    branches [search_notion] and [query_database] of the tool handler of
    [src/mcp_server.py], with properties of their own.

    Python values are modelled as the code handles them:
    - a [str] is a sequence of Unicode code points ([list N]);
    - a block is a [dict] of JSON-like values ([json]), read with
      [dict.get] and written as a literal;
    - an operation that can raise ([x[i]], [x.get], iteration, [in],
      [str.join]) returns a [result], and so does every function built
      from them;
    - the two [while] loops of the parser run on an index and a fuel; the
      parser hands them more fuel than there are lines and the development
      proves that it is never used up. *)

From Stdlib Require Import Ascii String.
From Stdlib Require Import List Bool Arith NArith ZArith Lia.
Import ListNotations.
Open Scope list_scope.

Set Warnings "-register-all".

(** ** Strings *)

Module Str.

(** A character is its code point, a string the list of its characters. *)
Definition char : Type := N.
Definition str : Type := list char.

(** A literal of the source, written in ASCII. *)
Fixpoint lit (s : string) : str :=
  match s with
  | EmptyString => []
  | String a s' => N_of_ascii a :: lit s'
  end.
Arguments lit s%_string.

(** The newline character, ["\n"]. *)
Definition NL : char := 10%N.

Definition in_ranges (table : list (N * N)) (c : char) : bool :=
  existsb (fun r => (fst r <=? c)%N && (c <=? snd r)%N) table.

(** [str.isspace] of one character, which is also what [str.strip()]
    removes: the characters of bidirectional class WS, B or S and of
    category Zs (CPython's [_PyUnicode_IsWhitespace]). *)
Definition whitespace_table : list (N * N) :=
  [ (9, 13); (28, 32); (133, 133); (160, 160); (5760, 5760); (8192, 8202);
    (8232, 8233); (8239, 8239); (8287, 8287); (12288, 12288) ]%N.

Definition isspace (c : char) : bool := in_ranges whitespace_table c.

(** [str.isdigit] of one character: the characters whose Unicode numeric
    type is Decimal or Digit (Unicode 14.0, the table of CPython 3.11).
    The first range is ASCII ['0'..'9']; the others are the superscript
    digits and the digits of other scripts. *)
Definition digit_table : list (N * N) :=
  [ (48, 57); (178, 179); (185, 185); (1632, 1641); (1776, 1785);
    (1984, 1993); (2406, 2415); (2534, 2543); (2662, 2671); (2790, 2799);
    (2918, 2927); (3046, 3055); (3174, 3183); (3302, 3311); (3430, 3439);
    (3558, 3567); (3664, 3673); (3792, 3801); (3872, 3881); (4160, 4169);
    (4240, 4249); (4969, 4977); (6112, 6121); (6160, 6169); (6470, 6479);
    (6608, 6618); (6784, 6793); (6800, 6809); (6992, 7001); (7088, 7097);
    (7232, 7241); (7248, 7257); (8304, 8304); (8308, 8313); (8320, 8329);
    (9312, 9320); (9332, 9340); (9352, 9360); (9450, 9450); (9461, 9469);
    (9471, 9471); (10102, 10110); (10112, 10120); (10122, 10130);
    (42528, 42537); (43216, 43225); (43264, 43273); (43472, 43481);
    (43504, 43513); (43600, 43609); (44016, 44025); (65296, 65305);
    (66720, 66729); (68160, 68163); (68912, 68921); (69216, 69224);
    (69714, 69722); (69734, 69743); (69872, 69881); (69942, 69951);
    (70096, 70105); (70384, 70393); (70736, 70745); (70864, 70873);
    (71248, 71257); (71360, 71369); (71472, 71481); (71904, 71913);
    (72016, 72025); (72784, 72793); (73040, 73049); (73120, 73129);
    (92768, 92777); (92864, 92873); (93008, 93017); (120782, 120831);
    (123200, 123209); (123632, 123641); (125264, 125273); (127232, 127242);
    (130032, 130041) ]%N.

Definition isdigit (c : char) : bool := in_ranges digit_table c.

(** The digits of ASCII, ['0'] to ['9']. *)
Definition is_ascii_digit (c : char) : bool := (48 <=? c)%N && (c <=? 57)%N.

(** [bool(s)]: a string is true when it is not empty. *)
Definition nonempty (s : str) : bool :=
  match s with [] => false | _ :: _ => true end.

(** [s.lstrip()], [s.rstrip()], [s.strip()]. *)
Fixpoint lstrip (s : str) : str :=
  match s with
  | [] => []
  | c :: s' => if isspace c then lstrip s' else s
  end.

Definition rstrip (s : str) : str := rev (lstrip (rev s)).

Definition strip (s : str) : str := rstrip (lstrip s).

(** [s.startswith(prefix)]. *)
Fixpoint startswith (s prefix : str) {struct prefix} : bool :=
  match prefix with
  | [] => true
  | a :: prefix' =>
      match s with
      | [] => false
      | b :: s' => (a =? b)%N && startswith s' prefix'
      end
  end.

(** [sub in s]. *)
Fixpoint contains (s sub : str) : bool :=
  startswith s sub ||
  match s with
  | [] => false
  | _ :: s' => contains s' sub
  end.

(** [s.find(sub)], [None] standing for [-1]. *)
Fixpoint find (s sub : str) : option nat :=
  if startswith s sub then Some 0
  else match s with
       | [] => None
       | _ :: s' => option_map S (find s' sub)
       end.

(** [s.split(sep, 1)] for a separator that is not empty: the text before
    the first occurrence of [sep] and the text after it, or [s] alone. *)
Definition split1 (s sep : str) : list str :=
  match find s sep with
  | Some k => [firstn k s; skipn (k + length sep) s]
  | None => [s]
  end.

(** [s.split(sep)] for a separator of one character. *)
Fixpoint split (s : str) (sep : char) : list str :=
  match s with
  | [] => [[]]
  | c :: s' =>
      if (c =? sep)%N then [] :: split s' sep
      else match split s' sep with
           | piece :: pieces => (c :: piece) :: pieces
           | [] => [[c]]
           end
  end.

(** [sep.join(items)]. *)
Fixpoint join (sep : str) (items : list str) : str :=
  match items with
  | [] => []
  | [x] => x
  | x :: rest => x ++ sep ++ join sep rest
  end.

End Str.
Import Str.

(** ** Results and exceptions *)

Inductive exception : Type := IndexError | AttributeError | TypeError.

(** What a call does: it returns a value, raises, or is stopped because
    the fuel of a loop ran out. *)
Inductive result (A : Type) : Type :=
| Ok (a : A)
| Raise (e : exception)
| OutOfFuel.

Arguments Ok {A} a.
Arguments Raise {A} e.
Arguments OutOfFuel {A}.

Definition bind {A B : Type} (r : result A) (k : A -> result B) : result B :=
  match r with
  | Ok a => k a
  | Raise e => Raise e
  | OutOfFuel => OutOfFuel
  end.

Notation "x <- r ;; k" := (bind r (fun x => k))
  (at level 61, r at next level, right associativity).
Notation "' p <- r ;; k" := (bind r (fun x => let 'p := x in k))
  (at level 61, p pattern, r at next level, right associativity).

(** [l[i]] for [0 <= i]. *)
Definition getitem {A : Type} (l : list A) (i : nat) : result A :=
  match nth_error l i with
  | Some a => Ok a
  | None => Raise IndexError
  end.

(** ** JSON-like values *)

(** The values a block is made of. A [dict] is the list of its items in
    insertion order, a key being looked up from the front. [JNum] is an
    integer; a float behaves like one in every operation used here. *)
Inductive json : Type :=
| JNone
| JBool (b : bool)
| JNum (z : Z)
| JStr (s : str)
| JList (items : list json)
| JDict (items : list (str * json)).

Definition str_eqb (a b : str) : bool :=
  if list_eq_dec N.eq_dec a b then true else false.

Fixpoint lookup (key : str) (items : list (str * json)) : option json :=
  match items with
  | [] => None
  | (k, v) :: rest => if str_eqb k key then Some v else lookup key rest
  end.

(** ** The parser *)

(** The block literals of [parse_markdown_to_blocks]. *)
Definition rich_text (content : str) : json :=
  JList [JDict [(lit "type", JStr (lit "text"));
                (lit "text", JDict [(lit "content", JStr content)])]].

Definition text_block (type content : str) : json :=
  JDict [(lit "type", JStr type);
         (type, JDict [(lit "rich_text", rich_text content)])].

Definition code_block (content language : str) : json :=
  JDict [(lit "type", JStr (lit "code"));
         (lit "code", JDict [(lit "rich_text", rich_text content);
                             (lit "language", JStr language)])].

Definition fence : str := lit "```".

(** The title scan: [for i, line in enumerate(lines)], left by [break] at
    the first line that starts with ["# "]. It gives the title and
    [content_start_idx], or [None] when no line matched. *)
Fixpoint title_scan (lines : list str) (i : nat) : option (str * nat) :=
  match lines with
  | [] => None
  | line :: rest =>
      if startswith line (lit "# ") then Some (strip (skipn 2 line), i + 1)
      else title_scan rest (i + 1)
  end.

(** The inner loop of a code fence:
    [while i < len(lines) and not lines[i].startswith("```")]. *)
Fixpoint fence_loop (fuel : nat) (lines : list str) (i : nat)
    (code_lines : list str) : result (nat * list str) :=
  match fuel with
  | O => OutOfFuel
  | S fuel' =>
      if i <? length lines then
        line <- getitem lines i ;;
        if negb (startswith line fence)
        then fence_loop fuel' lines (i + 1) (code_lines ++ [line])
        else Ok (i, code_lines)
      else Ok (i, code_lines)
  end.

(** [line.strip() and line[0].isdigit() and ". " in line]. *)
Definition numbered_test (line : str) : result bool :=
  if nonempty (strip line) then
    c <- getitem line 0 ;;
    if isdigit c then Ok (contains line (lit ". ")) else Ok false
  else Ok false.

(** One turn of the body loop, from [line = lines[i]] to the closing
    [i += 1]: the new index and the new block list. *)
Definition loop_body (fuel : nat) (lines : list str) (i : nat)
    (blocks : list json) : result (nat * list json) :=
  line <- getitem lines i ;;
  if startswith line (lit "## ") then
    Ok (i + 1, blocks ++ [text_block (lit "heading_2") (strip (skipn 3 line))])
  else if startswith line (lit "### ") then
    Ok (i + 1, blocks ++ [text_block (lit "heading_3") (strip (skipn 4 line))])
  else if startswith line (lit "- ") then
    Ok (i + 1,
        blocks ++ [text_block (lit "bulleted_list_item") (strip (skipn 2 line))])
  else
    numbered <- numbered_test line ;;
    if numbered then
      content <- getitem (split1 line (lit ". ")) 1 ;;
      Ok (i + 1,
          blocks ++ [text_block (lit "numbered_list_item") (strip content)])
    else if startswith line fence then
      let language := strip (skipn 3 line) in
      ' (i', code_lines) <- fence_loop fuel lines (i + 1) [] ;;
      Ok (i' + 1,
          blocks ++ [code_block (join [NL] code_lines)
                       (if nonempty language then language
                        else lit "plain text")])
    else if nonempty (strip line) then
      Ok (i + 1, blocks ++ [text_block (lit "paragraph") (strip line)])
    else Ok (i + 1, blocks).

(** [while i < len(lines)]. *)
Fixpoint body_loop (fuel : nat) (lines : list str) (i : nat)
    (blocks : list json) : result (list json) :=
  match fuel with
  | O => OutOfFuel
  | S fuel' =>
      if i <? length lines then
        ' (i', blocks') <- loop_body fuel' lines i blocks ;;
        body_loop fuel' lines i' blocks'
      else Ok blocks
  end.

(** [parse_markdown_to_blocks(md)], which returns [blocks, title]. *)
Definition parse_markdown_to_blocks (md : str) : result (list json * str) :=
  let lines := split (strip md) NL in
  let '(title, content_start_idx) :=
    match title_scan lines 0 with
    | Some (title, idx) => (title, idx)
    | None => (lit "", 0)
    end in
  blocks <- body_loop (S (length lines)) lines content_start_idx [] ;;
  Ok (blocks, title).

(** ** The serializer *)

(** [bool(v)]. *)
Definition truthy (v : json) : bool :=
  match v with
  | JNone => false
  | JBool b => b
  | JNum z => negb (z =? 0)%Z
  | JStr s => nonempty s
  | JList items => match items with [] => false | _ :: _ => true end
  | JDict items => match items with [] => false | _ :: _ => true end
  end.

(** [o.get(key, default)]: only a [dict] has the method. *)
Definition py_get (o : json) (key : str) (default : json) : result json :=
  match o with
  | JDict items =>
      Ok (match lookup key items with Some v => v | None => default end)
  | _ => Raise AttributeError
  end.

(** The keys of a [dict], each once, in the order of their first item. *)
Fixpoint keys (items : list (str * json)) : list str :=
  match items with
  | [] => []
  | (k, _) :: rest => k :: filter (fun k' => negb (str_eqb k' k)) (keys rest)
  end.

(** [for x in v]: the items of a list, the characters of a string, the
    keys of a [dict]; nothing else can be iterated. *)
Definition py_iter (v : json) : result (list json) :=
  match v with
  | JList items => Ok items
  | JStr s => Ok (map (fun c => JStr [c]) s)
  | JDict items => Ok (map JStr (keys items))
  | _ => Raise TypeError
  end.

(** [v == s] for a string [s]. *)
Definition eq_str (v : json) (s : str) : bool :=
  match v with
  | JStr s' => str_eqb s' s
  | _ => false
  end.

(** [key in v] for a string [key]: a key of a [dict], a substring of a
    string, an item of a list. *)
Definition py_in (key : str) (v : json) : result bool :=
  match v with
  | JDict items => Ok (match lookup key items with Some _ => true | None => false end)
  | JStr s => Ok (contains s key)
  | JList items => Ok (existsb (fun x => eq_str x key) items)
  | _ => Raise TypeError
  end.

(** [[rt.get("text", {}).get("content", "") for rt in items if "text" in rt]]. *)
Fixpoint text_contents (items : list json) : result (list json) :=
  match items with
  | [] => Ok []
  | rt :: rest =>
      has_text <- py_in (lit "text") rt ;;
      if has_text then
        text <- py_get rt (lit "text") (JDict []) ;;
        content <- py_get text (lit "content") (JStr (lit "")) ;;
        contents <- text_contents rest ;;
        Ok (content :: contents)
      else text_contents rest
  end.

(** [[""].join(parts)]: every part has to be a string. *)
Fixpoint join_values (parts : list json) : result str :=
  match parts with
  | [] => Ok []
  | JStr s :: rest => r <- join_values rest ;; Ok (s ++ r)
  | _ :: _ => Raise TypeError
  end.

(** [_extract_text_content(rich_text_list)]. *)
Definition extract_text_content (rich_text_list : json) : result str :=
  if negb (truthy rich_text_list) then Ok (lit "")
  else
    items <- py_iter rich_text_list ;;
    contents <- text_contents items ;;
    join_values contents.

(** [self._extract_text_content(block.get(key, {}).get("rich_text", []))]. *)
Definition block_text (block : json) (key : str) : result str :=
  payload <- py_get block key (JDict []) ;;
  rich <- py_get payload (lit "rich_text") (JList []) ;;
  extract_text_content rich.

Section Serializer.

(** What an f-string writes for a value that is not a string ([None], a
    number, a list, a [dict]): Python's own [format], which this
    repository does not define. A string is written as it is. *)
Variable py_format : json -> str.

Definition format_value (v : json) : str :=
  match v with
  | JStr s => s
  | _ => py_format v
  end.

(** One turn of [for block in blocks]: the lines the block adds to
    [md_lines]. *)
Definition convert_block (md_lines : list str) (block : json)
    : result (list str) :=
  block_type <- py_get block (lit "type") JNone ;;
  if eq_str block_type (lit "paragraph") then
    text_content <- block_text block (lit "paragraph") ;;
    Ok (md_lines ++ [text_content] ++ [lit ""])
  else if eq_str block_type (lit "heading_1") then
    text_content <- block_text block (lit "heading_1") ;;
    Ok (md_lines ++ [lit "# " ++ text_content] ++ [lit ""])
  else if eq_str block_type (lit "heading_2") then
    text_content <- block_text block (lit "heading_2") ;;
    Ok (md_lines ++ [lit "## " ++ text_content] ++ [lit ""])
  else if eq_str block_type (lit "heading_3") then
    text_content <- block_text block (lit "heading_3") ;;
    Ok (md_lines ++ [lit "### " ++ text_content] ++ [lit ""])
  else if eq_str block_type (lit "bulleted_list_item") then
    text_content <- block_text block (lit "bulleted_list_item") ;;
    Ok (md_lines ++ [lit "- " ++ text_content])
  else if eq_str block_type (lit "numbered_list_item") then
    text_content <- block_text block (lit "numbered_list_item") ;;
    Ok (md_lines ++ [lit "1. " ++ text_content])
  else if eq_str block_type (lit "code") then
    code_block <- py_get block (lit "code") (JDict []) ;;
    language <- py_get code_block (lit "language") (JStr (lit "")) ;;
    rich <- py_get code_block (lit "rich_text") (JList []) ;;
    text_content <- extract_text_content rich ;;
    Ok (md_lines ++ [lit "```" ++ format_value language] ++ [text_content]
          ++ [lit "```"] ++ [lit ""])
  else if eq_str block_type (lit "to_do") then
    todo_item <- py_get block (lit "to_do") (JDict []) ;;
    checked <- py_get todo_item (lit "checked") (JBool false) ;;
    rich <- py_get todo_item (lit "rich_text") (JList []) ;;
    text_content <- extract_text_content rich ;;
    let checkbox := if truthy checked then lit "[x]" else lit "[ ]" in
    Ok (md_lines ++ [lit "- " ++ checkbox ++ lit " " ++ text_content])
  else if eq_str block_type (lit "quote") then
    text_content <- block_text block (lit "quote") ;;
    Ok (md_lines ++ [lit "> " ++ text_content] ++ [lit ""])
  else Ok md_lines.

(** [for block in blocks]. *)
Fixpoint for_blocks (blocks : list json) (md_lines : list str)
    : result (list str) :=
  match blocks with
  | [] => Ok md_lines
  | block :: rest =>
      md_lines' <- convert_block md_lines block ;;
      for_blocks rest md_lines'
  end.

(** The lines of the title: [if title:] is false for [None] and for the
    empty string. *)
Definition title_lines (title : option str) : list str :=
  match title with
  | Some t => if nonempty t then [lit "# " ++ t; lit ""] else []
  | None => []
  end.

(** [convert_blocks_to_markdown(blocks, title)]. *)
Definition convert_blocks_to_markdown (blocks : list json)
    (title : option str) : result str :=
  md_lines <- for_blocks blocks (title_lines title) ;;
  Ok (join [NL] md_lines).

End Serializer.

(** ** The parser seen from the remaining lines

    The body loop reads [lines] from index [i] on; what it does depends on
    the lines from [i] on only. The definitions below give the same blocks
    by recursion on those lines. *)

Fixpoint take_while {A : Type} (p : A -> bool) (l : list A) : list A :=
  match l with
  | [] => []
  | x :: l' => if p x then x :: take_while p l' else []
  end.

Fixpoint drop_while {A : Type} (p : A -> bool) (l : list A) : list A :=
  match l with
  | [] => []
  | x :: l' => if p x then drop_while p l' else l
  end.

(** A line that does not close a fence. *)
Definition in_fence (line : str) : bool := negb (startswith line fence).

(** What the chain of tests of the loop makes of one line. *)
Inductive line_class : Type :=
| Block (block : json)
| Fence (language : str)
| Blank.

Definition first_is_digit (line : str) : bool :=
  match line with
  | [] => false
  | c :: _ => isdigit c
  end.

Definition after_first (line sep : str) : str :=
  match find line sep with
  | Some k => skipn (k + length sep) line
  | None => []
  end.

Definition classify (line : str) : line_class :=
  if startswith line (lit "## ") then
    Block (text_block (lit "heading_2") (strip (skipn 3 line)))
  else if startswith line (lit "### ") then
    Block (text_block (lit "heading_3") (strip (skipn 4 line)))
  else if startswith line (lit "- ") then
    Block (text_block (lit "bulleted_list_item") (strip (skipn 2 line)))
  else if nonempty (strip line) && first_is_digit line
          && contains line (lit ". ") then
    Block (text_block (lit "numbered_list_item")
             (strip (after_first line (lit ". "))))
  else if startswith line fence then
    Fence (if nonempty (strip (skipn 3 line)) then strip (skipn 3 line)
           else lit "plain text")
  else if nonempty (strip line) then
    Block (text_block (lit "paragraph") (strip line))
  else Blank.

(** The blocks of the lines [lines]. Inside a fence, [open_fence] holds
    the language and the lines gathered so far. *)
Fixpoint scan_lines (open_fence : option (str * list str))
    (lines : list str) : list json :=
  match lines with
  | [] =>
      match open_fence with
      | Some (language, code_lines) =>
          [code_block (join [NL] code_lines) language]
      | None => []
      end
  | line :: rest =>
      match open_fence with
      | Some (language, code_lines) =>
          if in_fence line
          then scan_lines (Some (language, code_lines ++ [line])) rest
          else code_block (join [NL] code_lines) language
                 :: scan_lines None rest
      | None =>
          match classify line with
          | Block block => block :: scan_lines None rest
          | Blank => scan_lines None rest
          | Fence language => scan_lines (Some (language, [])) rest
          end
      end
  end.

Definition body_blocks (lines : list str) : list json := scan_lines None lines.

(** ** The vocabulary of the properties *)

(** *** Texts and lines *)

(** A text given by its lines, in ASCII. *)
Definition text (lines : list string) : str := join [NL] (map lit lines).

(** A string that neither starts nor ends with whitespace is its own
    [strip]. *)
Definition trimmed (s : str) : Prop := strip s = s.

(** A string that begins, or ends, with a character that is not
    whitespace. *)
Definition head_solid (s : str) : Prop :=
  exists c t, s = c :: t /\ isspace c = false.

Definition tail_solid (s : str) : Prop :=
  exists u d, s = u ++ [d] /\ isspace d = false.

(** A prefix that whitespace could begin: the empty one, or one whose
    first character is whitespace. *)
Definition starts_blank (p : str) : bool :=
  match p with
  | [] => true
  | a :: _ => isspace a
  end.

Definition no_newline (s : str) : bool := negb (existsb (N.eqb NL) s).

(** A text the parser gives back as it is: not empty, on one line, with
    no whitespace at either end. *)
Definition plain (s : str) : bool :=
  nonempty s && no_newline s && str_eqb (strip s) s.

(** *** What the parser returns *)

(** The lines of code after an opening fence: those before the next line
    that starts with the fence. *)
Definition code_lines_from (lines : list str) : list str :=
  take_while in_fence lines.

(** The title and the index the body starts at, as the scan leaves them. *)
Definition title_of (lines : list str) : str :=
  match title_scan lines 0 with
  | Some (title, _) => title
  | None => lit ""
  end.

Definition content_start_idx (lines : list str) : nat :=
  match title_scan lines 0 with
  | Some (_, idx) => idx
  | None => 0
  end.

(** [block["type"]] when it is there and is a string. *)
Definition block_type (block : json) : option str :=
  match block with
  | JDict items =>
      match lookup (lit "type") items with
      | Some (JStr type) => Some type
      | _ => None
      end
  | _ => None
  end.

(** The text of a block as the serializer reads it: the runs under the
    block's own type, joined. *)
Definition block_content (block : json) : option str :=
  match block_type block with
  | Some type =>
      match block_text block type with
      | Ok content => Some content
      | _ => None
      end
  | None => None
  end.

(** The block types the parser writes. *)
Definition parser_types : list str :=
  [lit "heading_2"; lit "heading_3"; lit "bulleted_list_item";
   lit "numbered_list_item"; lit "code"; lit "paragraph"].

Definition parser_block (block : json) : Prop :=
  exists type, block_type block = Some type /\ In type parser_types.

(** *** What the serializer accepts *)

(** The types [convert_blocks_to_markdown] has a branch for: those whose
    branch ends with a blank line, and those whose branch does not. *)
Definition blank_after_types : list str :=
  [lit "paragraph"; lit "heading_1"; lit "heading_2"; lit "heading_3";
   lit "code"; lit "quote"].

Definition list_item_types : list str :=
  [lit "bulleted_list_item"; lit "numbered_list_item"; lit "to_do"].

Definition handled_types : list str := blank_after_types ++ list_item_types.

Definition is_dict (v : json) : bool :=
  match v with
  | JDict _ => true
  | _ => false
  end.

(** A formatter for the examples, which write strings only. *)
Definition no_format (v : json) : str := lit "".

(** A [to_do] block as Notion gives it. *)
Definition to_do_block (checked : bool) (content : str) : json :=
  JDict [(lit "type", JStr (lit "to_do"));
         (lit "to_do", JDict [(lit "rich_text", rich_text content);
                              (lit "checked", JBool checked)])].

(** A text run of the expected shape: a [dict] whose ["text"], when
    there, is a [dict] whose ["content"], when there, is a string. *)
Definition run_ok (rt : json) : bool :=
  match rt with
  | JDict items =>
      match lookup (lit "text") items with
      | None => true
      | Some (JDict text_items) =>
          match lookup (lit "content") text_items with
          | None => true
          | Some (JStr _) => true
          | Some _ => false
          end
      | Some _ => false
      end
  | _ => false
  end.

(** A payload of the expected shape: a [dict] whose ["rich_text"], when
    there, is a list of text runs. *)
Definition payload_ok (payload : json) : bool :=
  match payload with
  | JDict items =>
      match lookup (lit "rich_text") items with
      | None => true
      | Some (JList runs) => forallb run_ok runs
      | Some _ => false
      end
  | _ => false
  end.

(** A block of the expected shape: a [dict]; when its type is one the
    serializer writes, the payload under that type, when there, is a
    payload. *)
Definition well_shaped (block : json) : bool :=
  match block with
  | JDict items =>
      match lookup (lit "type") items with
      | Some (JStr type) =>
          if existsb (str_eqb type) handled_types then
            match lookup type items with
            | None => true
            | Some payload => payload_ok payload
            end
          else true
      | _ => true
      end
  | _ => false
  end.

(** *** The canonical subset

    The documents of the round trip: every block is of one of the six
    variants the parser writes and carries one text run. *)

Inductive text_kind : Type :=
| Heading_2 | Heading_3 | Bulleted | Numbered | Paragraph.

Inductive canonical_block : Type :=
| TextBlock (kind : text_kind) (content : str)
| CodeBlock (content language : str).

Definition type_of_kind (kind : text_kind) : str :=
  match kind with
  | Heading_2 => lit "heading_2"
  | Heading_3 => lit "heading_3"
  | Bulleted => lit "bulleted_list_item"
  | Numbered => lit "numbered_list_item"
  | Paragraph => lit "paragraph"
  end.

(** The block as the code holds it: the literal the parser writes. *)
Definition to_json (block : canonical_block) : json :=
  match block with
  | TextBlock kind content => text_block (type_of_kind kind) content
  | CodeBlock content language => code_block content language
  end.

Definition type_of (block : canonical_block) : str :=
  match block with
  | TextBlock kind _ => type_of_kind kind
  | CodeBlock _ _ => lit "code"
  end.

Definition content_of (block : canonical_block) : str :=
  match block with
  | TextBlock _ content => content
  | CodeBlock content _ => content
  end.

(** What the serializer writes before the text of a block. *)
Definition marker (kind : text_kind) : str :=
  match kind with
  | Heading_2 => lit "## "
  | Heading_3 => lit "### "
  | Bulleted => lit "- "
  | Numbered => lit "1. "
  | Paragraph => lit ""
  end.

(** The lines the serializer writes for a block, without the blank line
    that may follow them, and that blank line. *)
Definition written_lines (block : canonical_block) : list str :=
  match block with
  | TextBlock kind content => [marker kind ++ content]
  | CodeBlock content language => [lit "```" ++ language; content; lit "```"]
  end.

Definition blank_after (block : canonical_block) : list str :=
  match block with
  | TextBlock Bulleted _ | TextBlock Numbered _ => []
  | _ => [lit ""]
  end.

Definition document_lines (doc : list canonical_block) : list str :=
  concat (map (fun block => written_lines block ++ blank_after block) doc).

(** The lines of a block once the text is split at the newlines. *)
Definition read_lines (block : canonical_block) : list str :=
  concat (map (fun l => split l NL) (written_lines block)).

Definition read_lines_after (block : canonical_block) : list str :=
  read_lines block ++ blank_after block.

(** A text that, alone on a line, is read as a paragraph. *)
Definition reads_as_paragraph (s : str) : bool :=
  negb (startswith s (lit "## ")) && negb (startswith s (lit "### "))
  && negb (startswith s (lit "- "))
  && negb (first_is_digit s && contains s (lit ". "))
  && negb (startswith s fence).

(** The blocks that come back from the round trip. [titled] tells whether
    the document has a title: without one, a line that starts with
    ["# "] would be read as the title. *)
Definition round_trips (titled : bool) (block : canonical_block) : Prop :=
  match block with
  | TextBlock Paragraph content =>
      plain content = true /\ reads_as_paragraph content = true
      /\ (titled = false -> startswith content (lit "# ") = false)
  | TextBlock _ content => plain content = true
  | CodeBlock content language =>
      no_newline language = true
      /\ Forall (fun line =>
                   startswith line fence = false
                   /\ (titled = false -> startswith line (lit "# ") = false))
           (split content NL)
  end.

(** The language the parser reads back from a fence line, and the block
    it reads back from the lines of a block. *)
Definition language_read (language : str) : str :=
  if nonempty (strip language) then strip language else lit "plain text".

Definition read_back (block : canonical_block) : canonical_block :=
  match block with
  | TextBlock kind content => TextBlock kind content
  | CodeBlock content language => CodeBlock content (language_read language)
  end.

(** Serializing a document and parsing the text again. *)
Definition serialize_then_parse (py_format : json -> str)
    (blocks : list json) (title : str) : result (list json * str) :=
  md <- convert_blocks_to_markdown py_format blocks (Some title) ;;
  parse_markdown_to_blocks md.

(** ** The client and the server

    The functions of [notion_mcp_client.py] and [mcp_server.py] that work
    on strings and on the arguments of a tool call. *)

(** *** [extract_uuid] of [notion_mcp_client.py] *)

(** A character of the class [[0-9a-f]]. *)
Definition is_hex (c : char) : bool :=
  ((48 <=? c)%N && (c <=? 57)%N) || ((97 <=? c)%N && (c <=? 102)%N).

(** The pattern [[0-9a-f]{32}] matches at the start of [s]. *)
Definition hex32_here (s : str) : bool :=
  (32 <=? length s) && forallb is_hex (firstn 32 s).

(** [re.search(r"([0-9a-f]{32})", s)]: the match at the leftmost place
    where the pattern matches, as [match.group(1)]. *)
Fixpoint search_hex32 (s : str) : option str :=
  if hex32_here s then Some (firstn 32 s)
  else match s with
       | [] => None
       | _ :: s' => search_hex32 s'
       end.

(** [s[a:b]] for [0 <= a <= b]. *)
Definition slice (s : str) (a b : nat) : str := firstn (b - a) (skipn a s).

(** [f"{s[0:8]}-{s[8:12]}-{s[12:16]}-{s[16:20]}-{s[20:]}"]. *)
Definition dashed (s : str) : str :=
  slice s 0 8 ++ lit "-" ++ slice s 8 12 ++ lit "-" ++ slice s 12 16
    ++ lit "-" ++ slice s 16 20 ++ lit "-" ++ skipn 20 s.

(** [extract_uuid(resource_uri)]. *)
Definition extract_uuid (resource_uri : str) : str :=
  match search_hex32 resource_uri with
  | Some s => dashed s
  | None => resource_uri
  end.

(** The dash, ["-"]. *)
Definition DASH : char := 45%N.

(** A string without its dashes. *)
Definition undashed (s : str) : str := filter (fun c => negb (c =? DASH)%N) s.

(** *** [_markdown_to_blocks] of [mcp_server.py] *)

(** The block that one turn of [for line in lines] appends for a line
    that is stripped and not empty. *)
Definition line_block (line : str) : json :=
  if startswith line (lit "# ") then
    text_block (lit "heading_1") (skipn 2 line)
  else if startswith line (lit "## ") then
    text_block (lit "heading_2") (skipn 3 line)
  else if startswith line (lit "### ") then
    text_block (lit "heading_3") (skipn 4 line)
  else if startswith line (lit "- ") then
    text_block (lit "bulleted_list_item") (skipn 2 line)
  else text_block (lit "paragraph") line.

(** [for line in lines], with [continue] on a line that is empty once
    stripped. *)
Fixpoint for_lines (lines : list str) (blocks : list json) : list json :=
  match lines with
  | [] => blocks
  | line :: rest =>
      let line := strip line in
      if negb (nonempty line) then for_lines rest blocks
      else for_lines rest (blocks ++ [line_block line])
  end.

(** [_markdown_to_blocks(markdown)]. *)
Definition _markdown_to_blocks (markdown : str) : list json :=
  for_lines (split (strip markdown) NL) [].

(** The lines that give a block: the lines of the text, stripped, those
    left empty taken out. *)
Definition solid_lines (markdown : str) : list str :=
  filter nonempty (map strip (split markdown NL)).

(** The block types [_markdown_to_blocks] writes. *)
Definition server_types : list str :=
  [lit "heading_1"; lit "heading_2"; lit "heading_3";
   lit "bulleted_list_item"; lit "paragraph"].

(** *** The arguments of a tool call

    A [dict] of arguments is the list of its items, as in [JDict]. An
    optional argument of the client is [JNone] when it is not given. *)

(** [d.get(key, default)] on the items of a [dict]. *)
Definition dict_get (items : list (str * json)) (key : str) (default : json)
    : json :=
  match lookup key items with
  | Some v => v
  | None => default
  end.

(** [d[key] = v]: the value of a key that is there is replaced at its
    place, a new key comes last. *)
Fixpoint dict_set (items : list (str * json)) (key : str) (v : json)
    : list (str * json) :=
  match items with
  | [] => [(key, v)]
  | (k, v') :: rest =>
      if str_eqb k key then (k, v) :: rest
      else (k, v') :: dict_set rest key v
  end.

Definition is_none (v : json) : bool :=
  match v with
  | JNone => true
  | _ => false
  end.

(** [call_tool] of [notion_mcp_client.py]: the arguments it sends,
    [{k: v for k, v in arguments.items() if v is not None}]. *)
Definition call_tool (arguments : list (str * json)) : list (str * json) :=
  filter (fun item => negb (is_none (snd item))) arguments.

(** [query_database] of [notion_mcp_client.py]: the arguments it hands
    to [call_tool]. *)
Definition query_database (database_id filter_criteria sorts page_size : json)
    : list (str * json) :=
  let arguments := [(lit "database_id", database_id)] in
  let arguments :=
    if truthy filter_criteria
    then dict_set arguments (lit "filter") filter_criteria else arguments in
  let arguments :=
    if truthy sorts then dict_set arguments (lit "sorts") sorts
    else arguments in
  let arguments :=
    if truthy page_size then dict_set arguments (lit "page_size") page_size
    else arguments in
  call_tool arguments.

(** [min(v, n)] for an integer [n]: [n] when [n < v], else [v]. A number
    or a boolean can be compared with [n]; anything else raises. *)
Definition py_min (v : json) (n : Z) : result json :=
  match v with
  | JNum z => Ok (if (n <? z)%Z then JNum n else JNum z)
  | JBool b => Ok (if (n <? Z.b2z b)%Z then JNum n else JBool b)
  | _ => Raise TypeError
  end.

(** The branch [query_database] of [handle_call_tool] in [mcp_server.py]:
    the keyword arguments it calls [databases.query] with. What it
    raises is caught by the handler, which then answers with the text of
    the error and does not call Notion. *)
Definition query_params (arguments : list (str * json))
    : result (list (str * json)) :=
  let database_id := dict_get arguments (lit "database_id") JNone in
  let filter_criteria := dict_get arguments (lit "filter") JNone in
  let sorts := dict_get arguments (lit "sorts") JNone in
  let page_size := dict_get arguments (lit "page_size") (JNum 50) in
  let query_params := [(lit "database_id", database_id)] in
  let query_params :=
    if truthy filter_criteria
    then dict_set query_params (lit "filter") filter_criteria
    else query_params in
  let query_params :=
    if truthy sorts then dict_set query_params (lit "sorts") sorts
    else query_params in
  if truthy page_size then
    size <- py_min page_size 100 ;;
    Ok (dict_set query_params (lit "page_size") size)
  else Ok query_params.

(** An optional string and an optional integer as values. *)
Definition opt_str (s : option str) : json :=
  match s with
  | Some s => JStr s
  | None => JNone
  end.

Definition opt_num (n : option Z) : json :=
  match n with
  | Some z => JNum z
  | None => JNone
  end.

(** [search_notion] of [notion_mcp_client.py]: the arguments it hands to
    [call_tool]. [query and query.strip()] holds for a string whose
    [strip] is not empty; [filter_type in ("page", "database")] holds
    for these two strings only. *)
Definition search_notion (query filter_type : option str)
    : list (str * json) :=
  let arguments := [] in
  let arguments :=
    match query with
    | Some q =>
        if nonempty q && nonempty (strip q)
        then dict_set arguments (lit "query") (JStr (strip q))
        else arguments
    | None => arguments
    end in
  let arguments :=
    if eq_str (opt_str filter_type) (lit "page")
       || eq_str (opt_str filter_type) (lit "database")
    then dict_set arguments (lit "filter")
           (JDict [(lit "property", JStr (lit "object"));
                   (lit "value", opt_str filter_type)])
    else arguments in
  call_tool arguments.

(** The branch [search_notion] of [handle_call_tool]: the keyword
    arguments [query] and [filter] it calls [search] with. *)
Definition search_params (arguments : list (str * json))
    : list (str * json) :=
  let query := dict_get arguments (lit "query") (JStr (lit "")) in
  let filter_type := dict_get arguments (lit "filter") JNone in
  let search_filter := [] in
  let search_filter :=
    if truthy filter_type
    then dict_set search_filter (lit "object") filter_type
    else search_filter in
  [(lit "query", query);
   (lit "filter",
    if truthy (JDict search_filter) then JDict search_filter else JNone)].

(** ** More of the converter *)

(** The text [_extract_text_content] takes from one run: the
    [content] of its [text], when both are there. *)
Definition run_text (rt : json) : str :=
  match rt with
  | JDict items =>
      match lookup (lit "text") items with
      | Some (JDict text_items) =>
          match lookup (lit "content") text_items with
          | Some (JStr content) => content
          | _ => lit ""
          end
      | _ => lit ""
      end
  | _ => lit ""
  end.

(** A block as the parser leaves it: the text of a heading, an item or
    a paragraph is stripped and on one line, that of a paragraph is not
    empty; the language of a code block is stripped, on one line and not
    empty, and no line of the code starts with the fence. *)
Definition tidy (block : canonical_block) : Prop :=
  match block with
  | TextBlock kind content =>
      strip content = content /\ ~ In NL content
      /\ (kind = Paragraph -> content <> [])
  | CodeBlock content language =>
      language <> [] /\ strip language = language /\ ~ In NL language
      /\ Forall (fun line => startswith line fence = false)
           (split content NL)
  end.

(** Two blocks the serializer writes alike, wherever they stand in a
    document. *)
Definition written_alike (py_format : json -> str) (block1 block2 : json)
    : Prop :=
  forall (before after : list json) (title : option str),
    convert_blocks_to_markdown py_format (before ++ block1 :: after) title
    = convert_blocks_to_markdown py_format (before ++ block2 :: after) title.

(** ** Strings: prefixes, stripping, splitting and joining *)

Lemma startswith_app (p r : str) : startswith (p ++ r) p = true.
Proof.
  induction p as [|a p IH]; simpl; [reflexivity|].
  now rewrite N.eqb_refl, IH.
Qed.

Lemma startswith_iff (s p : str) :
  startswith s p = true <-> exists r, s = p ++ r.
Proof.
  split.
  - revert s. induction p as [|a p IH]; intros s H.
    + now exists s.
    + destruct s as [|b s]; simpl in H; [discriminate|].
      apply andb_true_iff in H. destruct H as [Hab H].
      apply N.eqb_eq in Hab. subst b.
      destruct (IH _ H) as [r ->]. now exists r.
  - intros [r ->]. apply startswith_app.
Qed.

Lemma startswith_nil (p : str) : startswith [] p = true -> p = [].
Proof. destruct p; simpl; [reflexivity | discriminate]. Qed.

Lemma skipn_prefix (p r : str) : skipn (length p) (p ++ r) = r.
Proof. induction p; simpl; auto. Qed.

Lemma lstrip_app_space (w s : str) :
  forallb isspace w = true -> lstrip (w ++ s) = lstrip s.
Proof.
  induction w as [|c w IH]; simpl; intros H; [reflexivity|].
  apply andb_true_iff in H. destruct H as [Hc Hw].
  rewrite Hc. auto.
Qed.

Lemma lstrip_all_space (w : str) : forallb isspace w = true -> lstrip w = [].
Proof.
  intros H. rewrite <- (app_nil_r w). now rewrite lstrip_app_space.
Qed.

Lemma forallb_rev {A : Type} (p : A -> bool) (l : list A) :
  forallb p (rev l) = forallb p l.
Proof.
  induction l as [|x l IH]; simpl; [reflexivity|].
  rewrite forallb_app, IH. simpl. rewrite andb_true_r. apply andb_comm.
Qed.

Lemma rstrip_app_space (s w : str) :
  forallb isspace w = true -> rstrip (s ++ w) = rstrip s.
Proof.
  intros H. unfold rstrip. rewrite rev_app_distr, lstrip_app_space; auto.
  now rewrite forallb_rev.
Qed.

Lemma lstrip_app_keep (s t : str) : lstrip s <> [] -> lstrip (s ++ t) = lstrip s ++ t.
Proof.
  induction s as [|c s IH]; simpl; intros H; [congruence|].
  destruct (isspace c); auto.
Qed.

Lemma lstrip_blank_space (s : str) : lstrip s = [] -> forallb isspace s = true.
Proof.
  induction s as [|c s IH]; simpl; [reflexivity|].
  destruct (isspace c); [auto | discriminate].
Qed.

(** Whitespace around a string does not change what [strip] returns. *)
Lemma strip_pad (w1 s w2 : str) :
  forallb isspace w1 = true -> forallb isspace w2 = true ->
  strip (w1 ++ s ++ w2) = strip s.
Proof.
  intros H1 H2. unfold strip. rewrite lstrip_app_space by assumption.
  destruct (lstrip s) as [|c t] eqn:E.
  - apply lstrip_blank_space in E.
    rewrite lstrip_all_space; [reflexivity|].
    rewrite forallb_app. now rewrite E, H2.
  - rewrite lstrip_app_keep by (rewrite E; discriminate).
    rewrite E. now apply rstrip_app_space.
Qed.

Lemma lstrip_head (c : char) (s : str) :
  isspace c = false -> lstrip (c :: s) = c :: s.
Proof. intros H. simpl. now rewrite H. Qed.

Lemma rstrip_last (s : str) (c : char) :
  isspace c = false -> rstrip (s ++ [c]) = s ++ [c].
Proof.
  intros H. unfold rstrip. rewrite rev_app_distr. simpl. rewrite H.
  simpl. now rewrite rev_involutive.
Qed.

Lemma lstrip_idem (s : str) : lstrip (lstrip s) = lstrip s.
Proof.
  induction s as [|c s IH]; simpl; [reflexivity|].
  destruct (isspace c) eqn:E; [assumption|]. simpl. now rewrite E.
Qed.

Lemma lstrip_cases (s : str) :
  lstrip s = [] \/ exists c t, lstrip s = c :: t /\ isspace c = false.
Proof.
  induction s as [|c s IH]; simpl; [now left|].
  destruct (isspace c) eqn:E; [assumption|]. right. now exists c, s.
Qed.

Lemma rstrip_cases (s : str) :
  rstrip s = [] \/ exists t c, rstrip s = t ++ [c] /\ isspace c = false.
Proof.
  unfold rstrip. destruct (lstrip_cases (rev s)) as [-> | (c & t & -> & Hc)].
  - now left.
  - right. exists (rev t), c. simpl. auto.
Qed.

Lemma lstrip_suffix (s : str) : exists w, s = w ++ lstrip s /\ forallb isspace w = true.
Proof.
  induction s as [|c s (w & Hw & Hs)]; simpl.
  - now exists [].
  - destruct (isspace c) eqn:E.
    + exists (c :: w). simpl. rewrite E, Hs. split; [now f_equal | reflexivity].
    + now exists [].
Qed.

Lemma rstrip_prefix (s : str) : exists w, s = rstrip s ++ w /\ forallb isspace w = true.
Proof.
  unfold rstrip. destruct (lstrip_suffix (rev s)) as (w & Hw & Hs).
  exists (rev w). split.
  - rewrite <- rev_app_distr, <- Hw. now rewrite rev_involutive.
  - now rewrite forallb_rev.
Qed.

(** [strip] removes a blank prefix and a blank suffix. *)
Lemma strip_decompose (s : str) :
  exists w1 w2, s = w1 ++ strip s ++ w2
                /\ forallb isspace w1 = true /\ forallb isspace w2 = true.
Proof.
  destruct (lstrip_suffix s) as (w1 & H1 & Hs1).
  destruct (rstrip_prefix (lstrip s)) as (w2 & H2 & Hs2).
  exists w1, w2. unfold strip. now rewrite <- H2.
Qed.

Lemma rstrip_keeps_head (c : char) (s : str) :
  isspace c = false -> exists t, rstrip (c :: s) = c :: t.
Proof.
  intros Hc. destruct (rstrip_prefix (c :: s)) as (w & Hw & Hs).
  destruct (rstrip (c :: s)) as [|d t] eqn:E.
  - simpl in Hw. subst w. simpl in Hs. rewrite Hc in Hs. discriminate.
  - simpl in Hw. injection Hw as -> _. now exists t.
Qed.

Lemma strip_idem (s : str) : strip (strip s) = strip s.
Proof.
  destruct (strip_decompose s) as (w1 & w2 & Hs & H1 & H2).
  pose proof (strip_pad w1 (strip s) w2 H1 H2) as H.
  rewrite <- Hs in H. now symmetry.
Qed.

Lemma strip_nil : strip [] = [].
Proof. reflexivity. Qed.

(** The shape of a string that [strip] leaves alone. *)
Lemma trimmed_ends (s : str) :
  trimmed s ->
  s = [] \/ exists c t d u, s = c :: t /\ s = u ++ [d]
                            /\ isspace c = false /\ isspace d = false.
Proof.
  unfold trimmed, strip. intros H.
  destruct s as [|c t]; [now left|]. right.
  destruct (lstrip_cases (c :: t)) as [E | (c' & t' & E & Hc')].
  - rewrite E in H. discriminate.
  - simpl in E. destruct (isspace c) eqn:Ec.
    + exfalso. destruct (lstrip_suffix t) as (w & Hw & Hs).
      assert (Hl : length (rstrip (lstrip (c :: t))) <= length t).
      { simpl. rewrite Ec. destruct (rstrip_prefix (lstrip t)) as (w2 & Hw2 & _).
        destruct (lstrip_suffix t) as (w1 & Hw1 & _).
        rewrite Hw1 at 2. rewrite Hw2 at 2. rewrite !length_app. lia. }
      rewrite H in Hl. simpl in Hl. lia.
    + destruct (rstrip_cases (lstrip (c :: t))) as [E2 | (u & d & E2 & Hd)].
      * rewrite E2 in H. discriminate.
      * exists c, t, d, u. rewrite E2 in H. auto.
Qed.

Lemma trimmed_from_ends (c d : char) (t u : str) :
  isspace c = false -> isspace d = false -> c :: t = u ++ [d] ->
  trimmed (c :: t).
Proof.
  intros Hc Hd E. unfold trimmed, strip. rewrite lstrip_head by assumption.
  rewrite E. now apply rstrip_last.
Qed.

Lemma split_not_nil (s : str) (sep : char) : split s sep <> [].
Proof.
  destruct s as [|c s]; simpl; [discriminate|].
  destruct (c =? sep)%N; [discriminate|].
  destruct (split s sep); discriminate.
Qed.

Lemma split_cons_other (c sep : char) (s : str) :
  c <> sep ->
  exists piece pieces,
    split s sep = piece :: pieces /\ split (c :: s) sep = (c :: piece) :: pieces.
Proof.
  intros Hc. simpl. apply N.eqb_neq in Hc. rewrite Hc.
  destruct (split s sep) as [|piece pieces] eqn:E.
  - now apply split_not_nil in E.
  - now exists piece, pieces.
Qed.

(** Joining the pieces of a split gives the string back. *)
Lemma join_split (s : str) (sep : char) : join [sep] (split s sep) = s.
Proof.
  induction s as [|c s IH]; simpl; [reflexivity|].
  destruct (c =? sep)%N eqn:E.
  - apply N.eqb_eq in E. subst c.
    destruct (split s sep) as [|piece pieces] eqn:Es.
    + now apply split_not_nil in Es.
    + simpl in *. now rewrite IH.
  - destruct (split s sep) as [|piece pieces] eqn:Es.
    + now apply split_not_nil in Es.
    + destruct pieces; simpl in *; now rewrite <- IH.
Qed.

Lemma split_no_sep (s : str) (sep : char) : ~ In sep s -> split s sep = [s].
Proof.
  induction s as [|c s IH]; simpl; intros H; [reflexivity|].
  destruct (c =? sep)%N eqn:E.
  - apply N.eqb_eq in E. tauto.
  - rewrite IH by tauto. reflexivity.
Qed.

Lemma split_app (s t : str) (sep : char) :
  ~ In sep s -> split (s ++ sep :: t) sep = s :: split t sep.
Proof.
  induction s as [|c s IH]; simpl; intros H.
  - now rewrite N.eqb_refl.
  - destruct (c =? sep)%N eqn:E.
    + apply N.eqb_eq in E. tauto.
    + rewrite IH by tauto. reflexivity.
Qed.

(** Splitting a join gives the lines back when no line holds the
    separator. *)
Lemma split_join (ls : list str) (sep : char) :
  ls <> [] -> Forall (fun l => ~ In sep l) ls ->
  split (join [sep] ls) sep = ls.
Proof.
  induction ls as [|l ls IH]; intros Hne H; [congruence|].
  inversion H as [|? ? Hl Hls]; subst.
  destruct ls as [|l' ls].
  - simpl. now apply split_no_sep.
  - change (join [sep] (l :: l' :: ls)) with (l ++ sep :: join [sep] (l' :: ls)).
    rewrite split_app by assumption. f_equal. apply IH; [discriminate | assumption].
Qed.

Lemma join_cons (sep x : str) (rest : list str) :
  rest <> [] -> join sep (x :: rest) = x ++ sep ++ join sep rest.
Proof. destruct rest; [congruence | reflexivity]. Qed.

Lemma join_app (sep : str) (a b : list str) :
  a <> [] -> b <> [] -> join sep (a ++ b) = join sep a ++ sep ++ join sep b.
Proof.
  induction a as [|x a IH]; intros Ha Hb; [congruence|].
  destruct a as [|y a].
  - simpl app. now rewrite join_cons.
  - change ((x :: y :: a) ++ b) with (x :: ((y :: a) ++ b)).
    rewrite join_cons by (simpl; discriminate).
    rewrite IH by (auto; discriminate).
    rewrite (join_cons sep x (y :: a)) by discriminate.
    now rewrite <- !app_assoc.
Qed.

Lemma split_lines_no_sep (s : str) (sep : char) :
  Forall (fun l => ~ In sep l) (split s sep).
Proof.
  induction s as [|c s IH]; simpl.
  - constructor; [tauto | constructor].
  - destruct (c =? sep)%N eqn:E.
    + constructor; [tauto | assumption].
    + destruct (split s sep) as [|piece pieces]; [repeat constructor|].
      * simpl. intros [H|[]]. subst c. now rewrite N.eqb_refl in E.
      * inversion IH; subst. constructor; [|assumption].
        simpl. intros [H|H]; [|tauto]. subst c. now rewrite N.eqb_refl in E.
Qed.

(** ** Lists: the longest prefix that satisfies a test *)

Lemma take_drop_while {A : Type} (p : A -> bool) (l : list A) :
  take_while p l ++ drop_while p l = l.
Proof.
  induction l as [|x l IH]; simpl; [reflexivity|].
  destruct (p x); simpl; now rewrite ?IH.
Qed.

Lemma skipn_take_while {A : Type} (p : A -> bool) (l : list A) :
  skipn (length (take_while p l)) l = drop_while p l.
Proof.
  induction l as [|x l IH]; simpl; [reflexivity|].
  destruct (p x); simpl; auto.
Qed.

Lemma drop_while_head {A : Type} (p : A -> bool) (l : list A) (x : A) (r : list A) :
  drop_while p l = x :: r -> p x = false.
Proof.
  induction l as [|y l IH]; simpl; [discriminate|].
  destruct (p y) eqn:E; [assumption|]. intros H. injection H as -> _. assumption.
Qed.

Lemma take_while_all {A : Type} (p : A -> bool) (l : list A) :
  Forall (fun x => p x = true) (take_while p l).
Proof.
  induction l as [|x l IH]; simpl; [constructor|].
  destruct (p x) eqn:E; constructor; assumption.
Qed.

Lemma take_while_app {A : Type} (p : A -> bool) (l : list A) (x : A) (r : list A) :
  Forall (fun y => p y = true) l -> p x = false ->
  take_while p (l ++ x :: r) = l /\ drop_while p (l ++ x :: r) = x :: r.
Proof.
  induction 1 as [|y l Hy Hl IH]; intros Hx; simpl.
  - now rewrite Hx.
  - rewrite Hy. destruct (IH Hx) as [-> ->]. auto.
Qed.

Lemma take_while_total {A : Type} (p : A -> bool) (l : list A) :
  Forall (fun y => p y = true) l ->
  take_while p l = l /\ drop_while p l = [].
Proof.
  induction 1 as [|y l Hy Hl [IH1 IH2]]; simpl; [auto|].
  rewrite Hy, IH1, IH2. auto.
Qed.

Lemma skipn_cons_nth {A : Type} (l : list A) (i : nat) (x : A) :
  nth_error l i = Some x -> skipn i l = x :: skipn (i + 1) l.
Proof.
  revert i. induction l as [|y l IH]; intros [|i] H; simpl in *; try discriminate.
  - now injection H as ->.
  - auto.
Qed.

Lemma skipn_add {A : Type} (l : list A) (i j : nat) :
  skipn (i + j) l = skipn j (skipn i l).
Proof.
  revert l. induction i as [|i IH]; intros l; simpl; [reflexivity|].
  destruct l; [now rewrite skipn_nil | apply IH].
Qed.

Lemma contains_find (s sub : str) :
  contains s sub = true <-> exists k, find s sub = Some k.
Proof.
  induction s as [|c s IH]; simpl.
  - destruct (startswith [] sub); simpl; split; eauto; try discriminate.
    intros [k H]; discriminate.
  - destruct (startswith (c :: s) sub); simpl.
    + split; eauto.
    + rewrite IH. split; intros [k H].
      * rewrite H. now exists (S k).
      * destruct (find s sub) as [k'|]; [now exists k' | discriminate].
Qed.

(** The guarded split: when [sep in line] holds, [line.split(sep, 1)] has
    a second item, the text after the first [sep]. *)
Lemma split1_second (line sep : str) :
  contains line sep = true ->
  getitem (split1 line sep) 1 = Ok (after_first line sep).
Proof.
  intros H. apply contains_find in H. destruct H as [k H].
  unfold split1, after_first. rewrite H. reflexivity.
Qed.

(** ** The loops of the parser *)

Arguments startswith : simpl never.
Arguments contains : simpl never.
Arguments find : simpl never.
Arguments strip : simpl never.
Arguments lit : simpl never.
Arguments isspace : simpl never.
Arguments isdigit : simpl never.
Arguments text_block : simpl never.
Arguments code_block : simpl never.

Lemma getitem_nth {A : Type} (l : list A) (i : nat) :
  i < length l -> exists x, nth_error l i = Some x /\ getitem l i = Ok x.
Proof.
  intros H. unfold getitem. destruct (nth_error l i) as [x|] eqn:E.
  - now exists x.
  - apply nth_error_None in E. lia.
Qed.

(** The fence loop stops at the first line that starts with the fence, or
    at the end of the lines, and has gathered the lines before it. *)
Lemma fence_loop_spec (fuel : nat) (lines : list str) :
  forall (i : nat) (code_lines : list str),
    length lines - i < fuel ->
    fence_loop fuel lines i code_lines =
      Ok (i + length (take_while in_fence (skipn i lines)),
          code_lines ++ take_while in_fence (skipn i lines)).
Proof.
  induction fuel as [|fuel IH]; intros i code_lines Hf; [lia|].
  simpl. destruct (i <? length lines) eqn:Hi.
  - apply Nat.ltb_lt in Hi.
    destruct (getitem_nth lines i Hi) as (line & Hn & ->). simpl.
    rewrite (skipn_cons_nth _ _ _ Hn). simpl. unfold in_fence at 1 3 4.
    destruct (startswith line fence); simpl.
    + now rewrite Nat.add_0_r, app_nil_r.
    + rewrite IH by lia. rewrite <- app_assoc. simpl.
      do 2 f_equal. lia.
  - apply Nat.ltb_ge in Hi. rewrite skipn_all2 by assumption. simpl.
    now rewrite Nat.add_0_r, app_nil_r.
Qed.

Lemma strip_nonempty_inv (line : str) :
  nonempty (strip line) = true -> exists c rest, line = c :: rest.
Proof.
  destruct line as [|c rest]; [discriminate|]. now exists c, rest.
Qed.

(** The test for a numbered item raises nothing: [line[0]] is read only
    when the line is not blank. *)
Lemma numbered_test_spec (line : str) :
  numbered_test line =
    Ok (nonempty (strip line) && first_is_digit line && contains line (lit ". ")).
Proof.
  unfold numbered_test. destruct (nonempty (strip line)) eqn:E; [|reflexivity].
  destruct (strip_nonempty_inv _ E) as (c & rest & ->).
  unfold getitem, first_is_digit. simpl nth_error. cbv beta iota. simpl bind.
  destruct (isdigit c); reflexivity.
Qed.

(** One turn of the body loop, by the class of its line. *)
Lemma loop_body_spec (fuel : nat) (lines : list str) (i : nat)
    (blocks : list json) (line : str) :
  nth_error lines i = Some line ->
  length lines - i <= fuel ->
  loop_body fuel lines i blocks =
    Ok match classify line with
       | Block block => (i + 1, blocks ++ [block])
       | Blank => (i + 1, blocks)
       | Fence language =>
           let code_lines := code_lines_from (skipn (i + 1) lines) in
           (i + 1 + length code_lines + 1,
            blocks ++ [code_block (join [NL] code_lines) language])
       end.
Proof.
  intros Hn Hf. unfold loop_body.
  replace (getitem lines i) with (Ok line) by (unfold getitem; now rewrite Hn).
  simpl bind.
  unfold classify.
  destruct (startswith line (lit "## ")); [reflexivity|].
  destruct (startswith line (lit "### ")); [reflexivity|].
  destruct (startswith line (lit "- ")); [reflexivity|].
  rewrite numbered_test_spec. simpl bind.
  destruct (nonempty (strip line) && first_is_digit line
            && contains line (lit ". ")) eqn:En.
  - apply andb_true_iff in En. destruct En as [_ Hc].
    rewrite (split1_second _ _ Hc). reflexivity.
  - destruct (startswith line fence).
    + assert (Hi : i < length lines) by (apply nth_error_Some; congruence).
      rewrite fence_loop_spec by lia. reflexivity.
    + destruct (nonempty (strip line)); reflexivity.
Qed.

Lemma scan_lines_open (language : str) (rest : list str) :
  forall code_lines : list str,
    scan_lines (Some (language, code_lines)) rest =
      code_block (join [NL] (code_lines ++ code_lines_from rest)) language
        :: body_blocks (tl (drop_while in_fence rest)).
Proof.
  unfold code_lines_from.
  induction rest as [|l rest IH]; intros code_lines; simpl.
  - now rewrite app_nil_r.
  - destruct (in_fence l); simpl.
    + rewrite IH. now rewrite <- app_assoc.
    + now rewrite app_nil_r.
Qed.

Lemma body_blocks_fence (line : str) (rest : list str) (language : str) :
  classify line = Fence language ->
  body_blocks (line :: rest) =
    code_block (join [NL] (code_lines_from rest)) language
      :: body_blocks (tl (drop_while in_fence rest)).
Proof.
  intros Hc. unfold body_blocks at 1. simpl. rewrite Hc.
  now rewrite scan_lines_open.
Qed.

Lemma body_blocks_block (line : str) (rest : list str) (block : json) :
  classify line = Block block ->
  body_blocks (line :: rest) = block :: body_blocks rest.
Proof. intros Hc. unfold body_blocks. simpl. now rewrite Hc. Qed.

Lemma body_blocks_blank (line : str) (rest : list str) :
  classify line = Blank -> body_blocks (line :: rest) = body_blocks rest.
Proof. intros Hc. unfold body_blocks. simpl. now rewrite Hc. Qed.

Lemma body_blocks_nil : body_blocks [] = [].
Proof. reflexivity. Qed.

(** The body loop never runs out of the fuel it is given and never
    raises; it appends the blocks of the lines from [i] on. *)
Lemma body_loop_spec (fuel : nat) (lines : list str) :
  forall (i : nat) (blocks : list json),
    length lines - i < fuel ->
    body_loop fuel lines i blocks = Ok (blocks ++ body_blocks (skipn i lines)).
Proof.
  induction fuel as [|fuel IH]; intros i blocks Hf; [lia|].
  simpl. destruct (i <? length lines) eqn:Hi.
  - apply Nat.ltb_lt in Hi.
    destruct (getitem_nth lines i Hi) as (line & Hn & _).
    rewrite (loop_body_spec fuel lines i blocks line Hn) by lia.
    rewrite (skipn_cons_nth _ _ _ Hn).
    destruct (classify line) as [block|language|] eqn:Hc; simpl bind.
    + rewrite IH by lia. rewrite (body_blocks_block _ _ _ Hc).
      now rewrite <- app_assoc.
    + rewrite IH by lia. rewrite (body_blocks_fence _ _ _ Hc).
      rewrite <- app_assoc. simpl. do 3 f_equal.
      unfold code_lines_from.
      rewrite <- Nat.add_assoc, (Nat.add_comm _ 1), !skipn_add.
      rewrite skipn_take_while. now destruct (drop_while _ _).
    + rewrite IH by lia. now rewrite (body_blocks_blank _ _ Hc).
  - apply Nat.ltb_ge in Hi. rewrite skipn_all2 by assumption.
    simpl. now rewrite app_nil_r.
Qed.

(** The parser returns, for every input: the blocks of the lines from
    [content_start_idx] on, and the title. *)
Lemma parse_spec (md : str) :
  let lines := split (strip md) NL in
  parse_markdown_to_blocks md =
    Ok (body_blocks (skipn (content_start_idx lines) lines), title_of lines).
Proof.
  intros lines. unfold parse_markdown_to_blocks, title_of, content_start_idx.
  fold lines. destruct (title_scan lines 0) as [[title idx]|];
    rewrite body_loop_spec by lia; reflexivity.
Qed.

(** ** Classes of lines *)

Lemma startswith_head (c a : char) (s p : str) :
  startswith (c :: s) (a :: p) = true -> a = c.
Proof.
  unfold startswith. intros H. apply andb_true_iff in H.
  now apply N.eqb_eq.
Qed.

(** A line of whitespace starts with no prefix whose first character is
    not whitespace. *)
Lemma blank_startswith (line p : str) :
  strip line = [] -> starts_blank p = false -> startswith line p = false.
Proof.
  intros Hs Ha. destruct p as [|a p]; [discriminate|]. simpl in Ha.
  destruct line as [|c s]; [reflexivity|].
  destruct (startswith (c :: s) (a :: p)) eqn:E; [|reflexivity].
  apply startswith_head in E. subst c.
  destruct (strip_decompose (a :: s)) as (w1 & w2 & Hd & H1 & H2).
  rewrite Hs in Hd. simpl in Hd. destruct w1 as [|d w1].
  - simpl in Hd. subst w2. simpl in H2. rewrite Ha in H2. discriminate.
  - injection Hd as <- _. simpl in H1. rewrite Ha in H1. discriminate.
Qed.

Lemma classify_blank (line : str) : strip line = [] -> classify line = Blank.
Proof.
  intros Hs. unfold classify.
  rewrite (blank_startswith line (lit "## ") Hs eq_refl).
  rewrite (blank_startswith line (lit "### ") Hs eq_refl).
  rewrite (blank_startswith line (lit "- ") Hs eq_refl).
  rewrite (blank_startswith line fence Hs eq_refl).
  rewrite Hs. reflexivity.
Qed.

Lemma classify_fence (line : str) :
  startswith line fence = true ->
  classify line =
    Fence (if nonempty (strip (skipn 3 line)) then strip (skipn 3 line)
           else lit "plain text").
Proof.
  intros H. unfold classify. rewrite H.
  apply startswith_iff in H. destruct H as [r ->].
  replace (startswith (fence ++ r) (lit "## ")) with false by reflexivity.
  replace (startswith (fence ++ r) (lit "### ")) with false by reflexivity.
  replace (startswith (fence ++ r) (lit "- ")) with false by reflexivity.
  replace (first_is_digit (fence ++ r)) with false by reflexivity.
  now rewrite andb_false_r.
Qed.

Lemma text_block_type (type content : str) :
  block_type (text_block type content) = Some type.
Proof. reflexivity. Qed.

Lemma code_block_type (content language : str) :
  block_type (code_block content language) = Some (lit "code").
Proof. reflexivity. Qed.

Lemma classify_parser_block (line : str) (block : json) :
  classify line = Block block -> parser_block block.
Proof.
  unfold classify, parser_block.
  repeat match goal with
         | |- context [if ?c then _ else _] => destruct c
         end;
    intros H; try discriminate; injection H as <-;
    eexists; (split; [apply text_block_type | simpl; tauto]).
Qed.

Lemma scan_lines_parser_blocks (lines : list str) :
  forall open_fence, Forall parser_block (scan_lines open_fence lines).
Proof.
  assert (Hcode : forall c l, parser_block (code_block c l)).
  { intros c l. exists (lit "code"). split; [reflexivity | simpl; tauto]. }
  induction lines as [|line rest IH]; intros [[language code_lines]|]; simpl.
  - constructor; [apply Hcode | constructor].
  - constructor.
  - destruct (in_fence line); [apply IH|]. constructor; [apply Hcode | apply IH].
  - destruct (classify line) as [block| |] eqn:Hc; try apply IH.
    constructor; [eapply classify_parser_block; eassumption | apply IH].
Qed.

(** ** Digits and first occurrences *)

Lemma in_ranges_above (table : list (N * N)) (c : char) :
  forallb (fun r => (c <? fst r)%N) table = true -> in_ranges table c = false.
Proof.
  unfold in_ranges. induction table as [|r table IH]; simpl; [reflexivity|].
  intros H. apply andb_true_iff in H. destruct H as [Hr Ht].
  rewrite (IH Ht), orb_false_r. apply N.ltb_lt in Hr.
  apply andb_false_iff. left. apply N.leb_gt. assumption.
Qed.

(** Below 128 the digits are the ten of ASCII. *)
Lemma isdigit_ascii (c : char) :
  (c < 128)%N -> isdigit c = is_ascii_digit c.
Proof.
  intros Hc.
  change (isdigit c) with (is_ascii_digit c || in_ranges (tl digit_table) c).
  rewrite in_ranges_above; [apply orb_false_r|].
  apply forallb_forall. intros r Hr. apply N.ltb_lt.
  assert (H : forallb (fun r => (128 <=? fst r)%N) (tl digit_table) = true)
    by (vm_compute; reflexivity).
  rewrite forallb_forall in H. specialize (H r Hr). apply N.leb_le in H. lia.
Qed.

Lemma find_eq (s sub : str) :
  find s sub =
    if startswith s sub then Some 0
    else match s with
         | [] => None
         | _ :: s' => option_map S (find s' sub)
         end.
Proof. destruct s; reflexivity. Qed.

(** [find] gives the first place where [sub] occurs. *)
Lemma find_first (sub : str) (s : str) :
  forall k, find s sub = Some k ->
    s = firstn k s ++ sub ++ skipn (k + length sub) s
    /\ forall j, j < k -> startswith (skipn j s) sub = false.
Proof.
  induction s as [|c s IH]; intros k; rewrite find_eq.
  - destruct (startswith [] sub) eqn:E; [|discriminate].
    intros H. injection H as <-. apply startswith_nil in E. subst sub.
    split; [reflexivity | intros j Hj; lia].
  - destruct (startswith (c :: s) sub) eqn:E.
    + intros H. injection H as <-. split; [|intros j Hj; lia].
      apply startswith_iff in E. destruct E as [r E]. rewrite E at 1.
      simpl firstn. simpl app. f_equal. rewrite E.
      now rewrite skipn_prefix.
    + destruct (find s sub) as [k'|] eqn:Ef; simpl; [|discriminate].
      intros H. injection H as <-. destruct (IH k' eq_refl) as [Hs Hj].
      split.
      * simpl. f_equal. exact Hs.
      * intros [|j] Hlt; [exact E|]. simpl. apply Hj. lia.
Qed.

Lemma after_first_spec (line sep : str) :
  contains line sep = true ->
  exists before,
    line = before ++ sep ++ after_first line sep
    /\ forall j, j < length before -> startswith (skipn j line) sep = false.
Proof.
  intros H. apply contains_find in H. destruct H as [k H].
  destruct (find_first sep line k H) as [Hs Hj].
  unfold after_first. rewrite H. exists (firstn k line). split; [exact Hs|].
  intros j Hlt. apply Hj. rewrite length_firstn in Hlt. lia.
Qed.

Lemma title_scan_found (pre : list str) (line : str) (post : list str) :
  Forall (fun l => startswith l (lit "# ") = false) pre ->
  startswith line (lit "# ") = true ->
  forall i, title_scan (pre ++ line :: post) i
            = Some (strip (skipn 2 line), i + length pre + 1).
Proof.
  intros Hpre Hline. induction Hpre as [|l pre Hl Hpre IH]; intros i; simpl.
  - rewrite Hline. do 2 f_equal. lia.
  - rewrite Hl, IH. do 2 f_equal. lia.
Qed.

Lemma title_scan_none (lines : list str) :
  Forall (fun l => startswith l (lit "# ") = false) lines ->
  forall i, title_scan lines i = None.
Proof.
  induction 1 as [|l lines Hl Hlines IH]; intros i; simpl; [reflexivity|].
  now rewrite Hl.
Qed.

Lemma skipn_past {A : Type} (pre : list A) (x : A) (post : list A) :
  skipn (0 + length pre + 1) (pre ++ x :: post) = post.
Proof.
  induction pre as [|y pre IH]; [reflexivity|]. exact IH.
Qed.

Lemma app_one_neq {A : Type} (l : list A) (x : A) : l <> l ++ [x].
Proof.
  intros H. apply (f_equal (@length A)) in H.
  rewrite length_app in H. simpl in H. lia.
Qed.

(** ** The serializer, block by block *)

Lemma str_eqb_eq (a b : str) : str_eqb a b = true <-> a = b.
Proof.
  unfold str_eqb. destruct (list_eq_dec N.eq_dec a b); split; congruence.
Qed.

Lemma str_eqb_refl (a : str) : str_eqb a a = true.
Proof. now apply str_eqb_eq. Qed.

Lemma eq_str_true (v : json) (s : str) : eq_str v s = true <-> v = JStr s.
Proof.
  destruct v; simpl; try (split; [discriminate | congruence]).
  rewrite str_eqb_eq. split; congruence.
Qed.

(** [block["type"]], read with [get], is the string [type]. *)
Lemma block_type_get (block : json) (type : str) :
  block_type block = Some type <->
  py_get block (lit "type") JNone = Ok (JStr type).
Proof.
  destruct block; simpl; try (split; discriminate).
  destruct (lookup (lit "type") items) as [[| | |s| |]|];
    split; intros H; try discriminate; congruence.
Qed.

Lemma bind_assoc {A B C : Type} (r : result A) (f : A -> result B)
    (g : B -> result C) :
  bind (bind r f) g = bind r (fun a => bind (f a) g).
Proof. destruct r; reflexivity. Qed.

(** The lines one block adds do not depend on the lines before it. *)
Lemma convert_block_lines (py_format : json -> str) (md_lines : list str)
    (block : json) :
  convert_block py_format md_lines block =
    (added <- convert_block py_format [] block ;; Ok (md_lines ++ added)).
Proof.
  unfold convert_block.
  destruct (py_get block (lit "type") JNone) as [block_type'| |]; simpl;
    [|reflexivity|reflexivity].
  repeat match goal with
         | |- context [if eq_str ?v ?s then _ else _] =>
             destruct (eq_str v s)
         end;
    repeat match goal with
           | |- context [bind ?r _] =>
               match r with
               | Ok _ => fail 1
               | _ => destruct r; simpl
               end
           end;
    simpl; rewrite ?app_nil_r; reflexivity.
Qed.

Lemma for_blocks_lines (py_format : json -> str) (blocks : list json) :
  forall md_lines,
    for_blocks py_format blocks md_lines =
      (added <- for_blocks py_format blocks [] ;; Ok (md_lines ++ added)).
Proof.
  induction blocks as [|block rest IH]; intros md_lines; simpl.
  - now rewrite app_nil_r.
  - rewrite convert_block_lines.
    destruct (convert_block py_format [] block) as [added| |]; simpl;
      [|reflexivity|reflexivity].
    rewrite IH. rewrite (IH added).
    destruct (for_blocks py_format rest []) as [more| |]; simpl;
      [|reflexivity|reflexivity].
    now rewrite app_assoc.
Qed.

Lemma for_blocks_app (py_format : json -> str) (blocks1 blocks2 : list json) :
  forall md_lines,
    for_blocks py_format (blocks1 ++ blocks2) md_lines =
      (before <- for_blocks py_format blocks1 md_lines ;;
       for_blocks py_format blocks2 before).
Proof.
  induction blocks1 as [|block rest IH]; intros md_lines; simpl.
  - reflexivity.
  - destruct (convert_block py_format md_lines block); simpl; auto.
Qed.

Ltac eval_type_tests :=
  repeat match goal with
         | |- context [eq_str (JStr ?a) ?b] =>
             let v := eval vm_compute in (eq_str (JStr a) b) in
             change (eq_str (JStr a) b) with v; cbv iota
         end.

Ltac run_binds :=
  repeat match goal with
         | |- context [bind ?r _] =>
             match r with
             | Ok _ => fail 1
             | _ => destruct r; cbn [bind]; try discriminate
             end
         end.

Lemma convert_block_unhandled (py_format : json -> str)
    (md_lines : list str) (block : json) :
  is_dict block = true ->
  (forall type, block_type block = Some type -> ~ In type handled_types) ->
  convert_block py_format md_lines block = Ok md_lines.
Proof.
  intros Hd Hun. destruct block as [| | | | |items]; try discriminate.
  unfold convert_block, py_get. simpl bind.
  set (v := match lookup (lit "type") items with
            | Some v => v
            | None => JNone
            end).
  assert (Hv : forall type, v = JStr type -> ~ In type handled_types).
  { intros type Hv. apply Hun. unfold block_type. subst v.
    destruct (lookup (lit "type") items); [now subst | discriminate]. }
  repeat match goal with
         | |- context [if eq_str v ?s then _ else _] =>
             let E := fresh "E" in
             destruct (eq_str v s) eqn:E;
             [apply eq_str_true in E; exfalso; apply (Hv _ E);
              unfold handled_types; simpl; tauto|]
         end.
  reflexivity.
Qed.

Lemma lit_app_not_nil (a : ascii) (s : string) (x : str) :
  lit (String a s) ++ x <> [].
Proof. discriminate. Qed.

Lemma one_line_not_nil (line : str) : [line] <> [].
Proof. discriminate. Qed.

(** ** Blocks of the expected shape *)

Lemma text_contents_ok (runs : list json) :
  forallb run_ok runs = true ->
  exists contents, text_contents runs = Ok (map JStr contents).
Proof.
  induction runs as [|rt runs IH]; simpl; intros H.
  - now exists [].
  - apply andb_true_iff in H. destruct H as [Hrt Hruns].
    destruct (IH Hruns) as [contents Hc].
    destruct rt as [| | | | |items]; try discriminate. simpl in *.
    destruct (lookup (lit "text") items) as [[| | | | |text_items]|];
      try discriminate; simpl; [|now exists contents].
    destruct (lookup (lit "content") text_items) as [[| | |s| |]|];
      try discriminate; simpl; rewrite Hc; simpl.
    + now exists (s :: contents).
    + now exists (lit "" :: contents).
Qed.

Lemma join_values_strings (contents : list str) :
  join_values (map JStr contents) = Ok (concat contents).
Proof.
  induction contents as [|s contents IH]; simpl; [reflexivity|].
  now rewrite IH.
Qed.

Lemma extract_runs_ok (runs : list json) :
  forallb run_ok runs = true ->
  exists text_content, extract_text_content (JList runs) = Ok text_content.
Proof.
  intros H. unfold extract_text_content.
  destruct (negb (truthy (JList runs))); [eauto|]. simpl.
  destruct (text_contents_ok runs H) as [contents ->]. simpl.
  rewrite join_values_strings. eauto.
Qed.

(** Reading the text of a payload raises nothing. *)
Lemma payload_text_ok (payload : json) :
  payload_ok payload = true ->
  exists rich text_content,
    py_get payload (lit "rich_text") (JList []) = Ok rich
    /\ extract_text_content rich = Ok text_content.
Proof.
  destruct payload as [| | | | |items]; try discriminate. simpl.
  destruct (lookup (lit "rich_text") items) as [[| | | |runs|]|];
    try discriminate; intros H.
  - destruct (extract_runs_ok runs H) as [text_content Ht]. eauto.
  - destruct (extract_runs_ok [] eq_refl) as [text_content Ht]. eauto.
Qed.

Lemma payload_is_dict (payload : json) :
  payload_ok payload = true -> exists items, payload = JDict items.
Proof. destruct payload; try discriminate. eauto. Qed.

Lemma payload_default_ok (type : str) (items : list (str * json)) :
  match lookup type items with
  | None => true
  | Some payload => payload_ok payload
  end = true ->
  exists payload_items,
    py_get (JDict items) type (JDict []) = Ok (JDict payload_items)
    /\ payload_ok (JDict payload_items) = true.
Proof.
  simpl. destruct (lookup type items) as [payload|]; intros H.
  - destruct (payload_is_dict payload H) as [payload_items ->]. eauto.
  - exists []. split; reflexivity.
Qed.

(** A block of the expected shape is converted without an exception. *)
Lemma convert_block_ok (py_format : json -> str) (md_lines : list str)
    (block : json) :
  well_shaped block = true ->
  exists md_lines', convert_block py_format md_lines block = Ok md_lines'.
Proof.
  intros Hw. destruct block as [| | | | |items]; try discriminate.
  destruct (block_type (JDict items)) as [type|] eqn:Ht.
  2:{ rewrite convert_block_unhandled; [eauto | reflexivity |].
      intros type Ht'. congruence. }
  assert (Hw' : if existsb (str_eqb type) handled_types
                then match lookup type items with
                     | None => true
                     | Some payload => payload_ok payload
                     end = true
                else True).
  { unfold well_shaped in Hw. unfold block_type in Ht.
    destruct (lookup (lit "type") items) as [[| | |s| |]|]; try discriminate.
    injection Ht as ->.
    destruct (existsb (str_eqb type) handled_types); [exact Hw | exact I]. }
  destruct (existsb (str_eqb type) handled_types) eqn:Hh.
  2:{ rewrite convert_block_unhandled; [eauto | reflexivity |].
      intros type' Ht' Hin. rewrite Ht in Ht'. injection Ht' as <-.
      assert (existsb (str_eqb type) handled_types = true); [|congruence].
      apply existsb_exists. exists type. split; [exact Hin|].
      apply str_eqb_refl. }
  apply existsb_exists in Hh. destruct Hh as (type' & Hin & Heq).
  apply str_eqb_eq in Heq. subst type'.
  destruct (payload_default_ok type items Hw') as (payload_items & Hp & Hok).
  destruct (payload_text_ok _ Hok) as (rich & text_content & Hrich & Htext).
  apply block_type_get in Ht. unfold convert_block. rewrite Ht. cbn [bind].
  unfold handled_types in Hin. simpl in Hin.
  repeat destruct Hin as [<- | Hin]; try contradiction;
    eval_type_tests; unfold block_text; rewrite Hp; cbn [bind];
    try (rewrite Hrich; cbn [bind]; rewrite Htext; cbn [bind]; eauto).
  all: unfold py_get; cbn [bind]; eauto.
Qed.

Lemma for_blocks_ok (py_format : json -> str) (blocks : list json) :
  Forall (fun block => well_shaped block = true) blocks ->
  forall md_lines,
    exists md_lines', for_blocks py_format blocks md_lines = Ok md_lines'.
Proof.
  induction 1 as [|block rest Hb Hrest IH]; intros md_lines; simpl.
  - eauto.
  - destruct (convert_block_ok py_format md_lines block Hb) as [l ->].
    cbn [bind]. apply IH.
Qed.

(** ** The serializer on the canonical subset *)

Lemma convert_block_canonical (py_format : json -> str)
    (md_lines : list str) (block : canonical_block) :
  convert_block py_format md_lines (to_json block)
  = Ok (md_lines ++ written_lines block ++ blank_after block).
Proof.
  rewrite convert_block_lines.
  destruct block as [[| | | |] content | content language];
    cbv -[app]; rewrite ?app_nil_r; reflexivity.
Qed.

Lemma for_blocks_canonical (py_format : json -> str)
    (doc : list canonical_block) :
  forall md_lines,
    for_blocks py_format (map to_json doc) md_lines
    = Ok (md_lines ++ document_lines doc).
Proof.
  unfold document_lines.
  induction doc as [|block doc IH]; intros md_lines; simpl.
  - now rewrite app_nil_r.
  - rewrite convert_block_canonical. cbn [bind]. rewrite IH.
    now rewrite <- !app_assoc.
Qed.

(** ** Lines that begin and end with a character that is not whitespace *)

Lemma head_solid_app (s t : str) : head_solid s -> head_solid (s ++ t).
Proof. intros (c & r & -> & Hc). now exists c, (r ++ t). Qed.

Lemma tail_solid_app (s t : str) : tail_solid t -> tail_solid (s ++ t).
Proof.
  intros (u & d & -> & Hd). exists (s ++ u), d.
  now rewrite app_assoc.
Qed.

Lemma solid_trimmed (s : str) : head_solid s -> tail_solid s -> strip s = s.
Proof.
  intros (c & t & -> & Hc) (u & d & E & Hd).
  exact (trimmed_from_ends c d t u Hc Hd E).
Qed.

Lemma trimmed_solid (s : str) :
  strip s = s -> s <> [] -> head_solid s /\ tail_solid s.
Proof.
  intros H Hne. destruct (trimmed_ends s H) as [-> | (c & t & d & u & E1 & E2 & Hc & Hd)].
  - congruence.
  - split; [now exists c, t | now exists u, d].
Qed.

Lemma plain_spec (s : str) :
  plain s = true ->
  ~ In NL s /\ strip s = s /\ head_solid s /\ tail_solid s.
Proof.
  unfold plain, no_newline. intros H.
  apply andb_true_iff in H. destruct H as [H Hs].
  apply andb_true_iff in H. destruct H as [Hne Hnl].
  apply str_eqb_eq in Hs. apply negb_true_iff in Hnl.
  split; [|split; [exact Hs|]].
  - intros Hin.
    assert (existsb (N.eqb NL) s = true); [|congruence].
    apply existsb_exists. exists NL. split; [exact Hin | apply N.eqb_refl].
  - apply trimmed_solid; [exact Hs|]. destruct s; [discriminate | discriminate].
Qed.

Lemma no_newline_spec (s : str) : no_newline s = true -> ~ In NL s.
Proof.
  unfold no_newline. intros H Hin. apply negb_true_iff in H.
  assert (existsb (N.eqb NL) s = true); [|congruence].
  apply existsb_exists. exists NL. split; [exact Hin | apply N.eqb_refl].
Qed.

(** Splitting at a separator splits both sides of it. *)
Lemma split_at (s t : str) (sep : char) :
  split (s ++ sep :: t) sep = split s sep ++ split t sep.
Proof.
  induction s as [|c s IH]; simpl.
  - now rewrite N.eqb_refl.
  - rewrite IH. destruct (c =? sep)%N; [reflexivity|].
    destruct (split s sep) as [|piece pieces] eqn:E; [|reflexivity].
    now apply split_not_nil in E.
Qed.

Lemma split_join_pieces (ls : list str) (sep : char) :
  ls <> [] ->
  split (join [sep] ls) sep = concat (map (fun l => split l sep) ls).
Proof.
  induction ls as [|l ls IH]; intros Hne; [congruence|].
  destruct ls as [|l' ls].
  - simpl. now rewrite app_nil_r.
  - change (join [sep] (l :: l' :: ls))
      with (l ++ sep :: join [sep] (l' :: ls)).
    rewrite split_at, IH by discriminate. reflexivity.
Qed.

Lemma join_head_solid (sep : str) (l : str) (ls : list str) :
  head_solid l -> head_solid (join sep (l :: ls)).
Proof.
  intros H. destruct ls; [exact H|].
  change (head_solid (l ++ sep ++ join sep (s :: ls))).
  now apply head_solid_app.
Qed.

Lemma join_tail_solid (sep : str) (ls : list str) (l : str) :
  tail_solid l -> tail_solid (join sep (ls ++ [l])).
Proof.
  intros H. destruct ls as [|x ls]; [exact H|].
  rewrite join_app by discriminate. simpl join.
  rewrite app_assoc. now apply tail_solid_app.
Qed.

(** The text of lines that begin and end solid is its own [strip], and a
    blank line after them is stripped away. *)
Lemma strip_join_solid (lines : list str) :
  lines <> [] ->
  head_solid (hd [] lines) -> tail_solid (last lines []) ->
  strip (join [NL] lines) = join [NL] lines
  /\ strip (join [NL] (lines ++ [lit ""])) = join [NL] lines.
Proof.
  intros Hne Hhead Htail.
  assert (Hs : strip (join [NL] lines) = join [NL] lines).
  { apply solid_trimmed.
    - destruct lines as [|l ls]; [congruence|]. now apply join_head_solid.
    - rewrite (app_removelast_last [] Hne). now apply join_tail_solid. }
  split; [exact Hs|].
  rewrite join_app by (assumption || discriminate).
  change ([NL] ++ join [NL] [lit ""]) with [NL].
  rewrite <- Hs at 2.
  exact (strip_pad [] (join [NL] lines) [NL] eq_refl eq_refl).
Qed.

(** ** The round trip, line by line *)

Lemma marker_no_newline (kind : text_kind) : ~ In NL (marker kind).
Proof.
  destruct kind; vm_compute; intuition discriminate.
Qed.

Lemma read_lines_text (kind : text_kind) (content : str) :
  ~ In NL content ->
  read_lines (TextBlock kind content) = [marker kind ++ content].
Proof.
  intros H. unfold read_lines, written_lines. cbn [map concat].
  rewrite split_no_sep; [reflexivity|].
  intros Hin. apply in_app_or in Hin. destruct Hin as [Hin | Hin];
    [now apply (marker_no_newline kind) | tauto].
Qed.

Lemma read_lines_code (content language : str) :
  ~ In NL language ->
  read_lines (CodeBlock content language)
  = (fence ++ language) :: split content NL ++ [fence].
Proof.
  intros H. unfold read_lines, written_lines. cbn [map concat].
  fold fence. rewrite (split_no_sep (fence ++ language)).
  - rewrite (split_no_sep fence); [now rewrite app_nil_r|].
    vm_compute. intuition discriminate.
  - intros Hin. apply in_app_or in Hin. destruct Hin as [Hin | Hin]; [|tauto].
    vm_compute in Hin. intuition discriminate.
Qed.

Lemma blank_after_split (block : canonical_block) :
  concat (map (fun l => split l NL) (blank_after block)) = blank_after block.
Proof. destruct block as [[| | | |] content | content language]; reflexivity. Qed.

Lemma round_trips_no_newline (titled : bool) (block : canonical_block) :
  round_trips titled block ->
  match block with
  | TextBlock _ content => ~ In NL content
  | CodeBlock _ language => ~ In NL language
  end.
Proof.
  destruct block as [[| | | |] content | content language]; simpl; intros H;
    try (now apply plain_spec in H).
  - destruct H as [H _]. now apply plain_spec in H.
  - destruct H as [H _]. now apply no_newline_spec.
Qed.

Lemma round_trips_plain (titled : bool) (kind : text_kind) (content : str) :
  round_trips titled (TextBlock kind content) -> plain content = true.
Proof. destruct kind; simpl; tauto. Qed.

Lemma head_solid_not_blank (s : str) :
  head_solid s -> nonempty (strip s) = true.
Proof.
  intros (c & t & -> & Hc). unfold strip. rewrite lstrip_head by assumption.
  destruct (rstrip_keeps_head c t Hc) as [u ->]. reflexivity.
Qed.

(** The line of a text block is read back as that block. *)
Lemma classify_written (titled : bool) (kind : text_kind) (content : str) :
  round_trips titled (TextBlock kind content) ->
  classify (marker kind ++ content)
  = Block (text_block (type_of_kind kind) content).
Proof.
  intros Hr. pose proof (round_trips_plain titled kind content Hr) as Hp.
  destruct (plain_spec content Hp) as (_ & Hs & Hh & _).
  unfold classify. destruct kind; cbn [marker type_of_kind].
  - rewrite startswith_app.
    change (skipn 3 (lit "## " ++ content)) with content. now rewrite Hs.
  - replace (startswith (lit "### " ++ content) (lit "## ")) with false
      by reflexivity.
    rewrite startswith_app.
    change (skipn 4 (lit "### " ++ content)) with content. now rewrite Hs.
  - replace (startswith (lit "- " ++ content) (lit "## ")) with false
      by reflexivity.
    replace (startswith (lit "- " ++ content) (lit "### ")) with false
      by reflexivity.
    rewrite startswith_app.
    change (skipn 2 (lit "- " ++ content)) with content. now rewrite Hs.
  - replace (startswith (lit "1. " ++ content) (lit "## ")) with false
      by reflexivity.
    replace (startswith (lit "1. " ++ content) (lit "### ")) with false
      by reflexivity.
    replace (startswith (lit "1. " ++ content) (lit "- ")) with false
      by reflexivity.
    rewrite head_solid_not_blank
      by (exists 49%N, (lit ". " ++ content); split; reflexivity).
    replace (first_is_digit (lit "1. " ++ content)) with true by reflexivity.
    replace (contains (lit "1. " ++ content) (lit ". ")) with true
      by reflexivity.
    change (after_first (lit "1. " ++ content) (lit ". ")) with content.
    now rewrite Hs.
  - change (lit "" ++ content) with content.
    destruct Hr as (_ & Hread & _). unfold reads_as_paragraph in Hread.
    repeat (apply andb_true_iff in Hread; destruct Hread as [Hread ?]).
    repeat match goal with
           | H : negb _ = true |- _ => apply negb_true_iff in H
           end.
    rewrite (head_solid_not_blank content Hh), Hs. cbn [andb].
    repeat match goal with
           | H : _ = false |- _ => rewrite H; clear H
           end.
    reflexivity.
Qed.

Lemma body_blocks_blank_line (rest : list str) :
  body_blocks (lit "" :: rest) = body_blocks rest.
Proof. apply body_blocks_blank. reflexivity. Qed.

Lemma classify_fence_line (language : str) :
  classify (fence ++ language) = Fence (language_read language).
Proof.
  rewrite classify_fence by apply startswith_app. reflexivity.
Qed.

(** The lines of one block, read back: the block itself, the language of a
    code block being read from its fence line. *)
Lemma body_blocks_written (titled : bool) (block : canonical_block)
    (rest : list str) :
  round_trips titled block ->
  body_blocks (read_lines block ++ rest)
  = to_json (read_back block) :: body_blocks rest.
Proof.
  intros Hr. pose proof (round_trips_no_newline titled block Hr) as Hnl.
  destruct block as [kind content | content language].
  - rewrite read_lines_text by assumption. simpl app.
    apply body_blocks_block. now apply (classify_written titled).
  - rewrite read_lines_code by assumption.
    destruct Hr as [_ Hlines]. simpl app.
    rewrite (body_blocks_fence _ _ _ (classify_fence_line language)).
    rewrite <- app_assoc. simpl app. unfold code_lines_from.
    destruct (take_while_app in_fence (split content NL) fence rest)
      as [Htake Hdrop].
    + eapply Forall_impl; [|exact Hlines]. intros l [Hl _].
      unfold in_fence. now rewrite Hl.
    + reflexivity.
    + rewrite Htake, Hdrop, join_split. reflexivity.
Qed.

Lemma body_blocks_after (titled : bool) (block : canonical_block)
    (rest : list str) :
  round_trips titled block ->
  body_blocks (read_lines_after block ++ rest)
  = to_json (read_back block) :: body_blocks rest.
Proof.
  intros Hr. unfold read_lines_after. rewrite <- app_assoc.
  rewrite (body_blocks_written titled) by assumption. f_equal.
  destruct block as [[| | | |] content | content language]; simpl app;
    try reflexivity; apply body_blocks_blank_line.
Qed.

Lemma body_blocks_document (titled : bool) (doc : list canonical_block)
    (rest : list str) :
  Forall (round_trips titled) doc ->
  body_blocks (concat (map read_lines_after doc) ++ rest)
  = map to_json (map read_back doc) ++ body_blocks rest.
Proof.
  induction 1 as [|block doc Hb Hdoc IH]; [reflexivity|].
  simpl. rewrite <- app_assoc.
  rewrite (body_blocks_after titled) by assumption. now rewrite IH.
Qed.

(** The lines the parser splits a written text into, when the text begins
    and ends solid and at most one blank line follows it. *)
Lemma lines_of_written (lines trail : list str) :
  lines <> [] ->
  head_solid (hd [] lines) -> tail_solid (last lines []) ->
  trail = [] \/ trail = [lit ""] ->
  split (strip (join [NL] (lines ++ trail))) NL
  = concat (map (fun l => split l NL) lines).
Proof.
  intros Hne Hhead Htail Htrail.
  destruct (strip_join_solid lines Hne Hhead Htail) as [H1 H2].
  destruct Htrail as [-> | ->].
  - rewrite app_nil_r, H1. now apply split_join_pieces.
  - rewrite H2. now apply split_join_pieces.
Qed.

Lemma last_app_right {A : Type} (l1 l2 : list A) (d : A) :
  l2 <> [] -> last (l1 ++ l2) d = last l2 d.
Proof.
  intros Hne. induction l1 as [|x l1 IH]; [reflexivity|].
  simpl. rewrite IH. destruct (l1 ++ l2) eqn:E; [|reflexivity].
  apply app_eq_nil in E. tauto.
Qed.

Lemma hd_app_left {A : Type} (l1 l2 : list A) (d : A) :
  l1 <> [] -> hd d (l1 ++ l2) = hd d l1.
Proof. destruct l1; [congruence | reflexivity]. Qed.

Lemma written_lines_not_nil (block : canonical_block) :
  written_lines block <> [].
Proof. destruct block; discriminate. Qed.

Lemma marker_head_solid (kind : text_kind) (content : str) :
  head_solid content -> head_solid (marker kind ++ content).
Proof.
  intros H. destruct kind;
    try (eexists _, _; split; reflexivity).
  exact H.
Qed.

Lemma written_lines_solid (titled : bool) (block : canonical_block) :
  round_trips titled block ->
  head_solid (hd [] (written_lines block))
  /\ tail_solid (last (written_lines block) []).
Proof.
  intros Hr. destruct block as [kind content | content language].
  - pose proof (round_trips_plain titled kind content Hr) as Hp.
    destruct (plain_spec content Hp) as (_ & _ & Hh & Ht). simpl. split.
    + now apply marker_head_solid.
    + now apply tail_solid_app.
  - split.
    + exists 96%N, (lit "``" ++ language). split; reflexivity.
    + exists (lit "``"), 96%N. split; reflexivity.
Qed.

Lemma document_lines_app (doc1 doc2 : list canonical_block) :
  document_lines (doc1 ++ doc2) = document_lines doc1 ++ document_lines doc2.
Proof. unfold document_lines. now rewrite map_app, concat_app. Qed.

Lemma document_lines_read (titled : bool) (doc : list canonical_block) :
  Forall (round_trips titled) doc ->
  concat (map (fun l => split l NL) (document_lines doc))
  = concat (map read_lines_after doc).
Proof.
  unfold document_lines.
  induction 1 as [|block doc Hb Hdoc IH]; [reflexivity|].
  simpl. rewrite !map_app, !concat_app, IH, blank_after_split.
  unfold read_lines_after, read_lines. now rewrite <- app_assoc.
Qed.

Lemma document_head_solid (titled : bool) (doc : list canonical_block)
    (block : canonical_block) :
  Forall (round_trips titled) (doc ++ [block]) ->
  head_solid (hd [] (document_lines doc ++ written_lines block)).
Proof.
  intros H. destruct doc as [|first doc].
  - inversion H; subst. now apply (written_lines_solid titled).
  - inversion H; subst. unfold document_lines. simpl.
    rewrite <- !app_assoc. rewrite hd_app_left by apply written_lines_not_nil.
    now apply (written_lines_solid titled).
Qed.

(** Without a title, no written line of a round-trip block begins with
    ["# "]. *)
Lemma no_title_line (block : canonical_block) :
  round_trips false block ->
  Forall (fun l => startswith l (lit "# ") = false) (read_lines_after block).
Proof.
  intros Hr. pose proof (round_trips_no_newline false block Hr) as Hnl.
  unfold read_lines_after.
  destruct block as [kind content | content language].
  - rewrite read_lines_text by assumption. apply Forall_app. split.
    + constructor; [|constructor].
      destruct kind; try reflexivity.
      destruct Hr as (_ & _ & Ht). now apply Ht.
    + destruct kind; repeat constructor.
  - rewrite read_lines_code by assumption. destruct Hr as [_ Hlines].
    apply Forall_app. split; [|repeat constructor].
    constructor; [reflexivity|]. apply Forall_app. split.
    + eapply Forall_impl; [|exact Hlines]. intros l [_ Hl]. now apply Hl.
    + repeat constructor.
Qed.

Lemma no_title_line_written (block : canonical_block) :
  round_trips false block ->
  Forall (fun l => startswith l (lit "# ") = false) (read_lines block).
Proof.
  intros Hr. pose proof (no_title_line block Hr) as H.
  unfold read_lines_after in H. apply Forall_app in H. tauto.
Qed.

Lemma no_title_lines (doc : list canonical_block) :
  Forall (round_trips false) doc ->
  Forall (fun l => startswith l (lit "# ") = false)
    (concat (map read_lines_after doc)).
Proof.
  induction 1 as [|block doc Hb Hdoc IH]; simpl; [constructor|].
  apply Forall_app. split; [now apply no_title_line | exact IH].
Qed.

Lemma blank_after_cases (block : canonical_block) :
  blank_after block = [] \/ blank_after block = [lit ""].
Proof. destruct block as [[| | | |] content | content language]; simpl; auto. Qed.

Lemma title_line_split (title : str) :
  ~ In NL title -> split (lit "# " ++ title) NL = [lit "# " ++ title].
Proof.
  intros H. apply split_no_sep. intros Hin. apply in_app_or in Hin.
  destruct Hin as [Hin | Hin]; [|tauto].
  vm_compute in Hin. intuition discriminate.
Qed.

Lemma title_line_solid (title : str) :
  title <> [] -> strip title = title ->
  head_solid (lit "# " ++ title) /\ tail_solid (lit "# " ++ title).
Proof.
  intros Hne Hs. destruct (trimmed_solid title Hs Hne) as [_ Ht]. split.
  - exists 35%N, (lit " " ++ title). split; reflexivity.
  - now apply tail_solid_app.
Qed.

Lemma read_back_type (block : canonical_block) :
  block_type (to_json (read_back block)) = block_type (to_json block).
Proof. destruct block as [[| | | |] content | content language]; reflexivity. Qed.

Lemma read_back_content (block : canonical_block) :
  block_content (to_json (read_back block)) = block_content (to_json block).
Proof. destruct block as [[| | | |] content | content language]; reflexivity. Qed.

Lemma canonical_type (block : canonical_block) :
  block_type (to_json block) = Some (type_of block).
Proof. destruct block as [[| | | |] content | content language]; reflexivity. Qed.

Lemma canonical_content (block : canonical_block) :
  block_content (to_json block) = Some (content_of block).
Proof.
  destruct block as [[| | | |] content | content language];
    cbv -[app]; now rewrite app_nil_r.
Qed.

(** The lines the parser sees of a document and its title line. *)
Lemma written_document_lines (titled : bool) (before : list str)
    (pre : list canonical_block) (block : canonical_block) :
  Forall (round_trips titled) (pre ++ [block]) ->
  head_solid (hd [] (before ++ document_lines pre ++ written_lines block)) ->
  split (strip (join [NL] (before ++ document_lines (pre ++ [block])))) NL
  = concat (map (fun l => split l NL) before)
      ++ concat (map read_lines_after pre) ++ read_lines block.
Proof.
  intros Hdoc Hhead. apply Forall_app in Hdoc. destruct Hdoc as [Hpre Hblock].
  inversion Hblock as [|? ? Hb _]; subst.
  destruct (written_lines_solid titled block Hb) as [_ Hlast].
  rewrite document_lines_app.
  replace (document_lines [block])
    with (written_lines block ++ blank_after block)
    by (unfold document_lines; cbn [map concat]; now rewrite app_nil_r).
  replace (before ++ document_lines pre
             ++ written_lines block ++ blank_after block)
    with ((before ++ document_lines pre ++ written_lines block)
            ++ blank_after block)
    by (now rewrite <- !app_assoc).
  rewrite lines_of_written.
  - rewrite !map_app, !concat_app.
    now rewrite (document_lines_read titled) by assumption.
  - intros E. apply app_eq_nil in E. destruct E as [_ E].
    apply app_eq_nil in E. destruct E as [_ E].
    now apply written_lines_not_nil in E.
  - exact Hhead.
  - rewrite !app_assoc, last_app_right by apply written_lines_not_nil.
    exact Hlast.
  - apply blank_after_cases.
Qed.

(** The parser on the text of a titled document. *)
Lemma parse_written_titled (title : str) (doc : list canonical_block) :
  title <> [] -> no_newline title = true -> strip title = title ->
  Forall (round_trips true) doc ->
  parse_markdown_to_blocks
    (join [NL] ([lit "# " ++ title; lit ""] ++ document_lines doc))
  = Ok (map to_json (map read_back doc), title).
Proof.
  intros Hne Hnl Hs Hdoc. apply no_newline_spec in Hnl.
  destruct (title_line_solid title Hne Hs) as [Hhead Htail].
  pose proof (title_line_split title Hnl) as Hsplit.
  assert (Hscan : forall rest,
             title_scan ((lit "# " ++ title) :: rest) 0 = Some (title, 1)).
  { intros rest. cbn [title_scan]. rewrite startswith_app.
    change (skipn 2 (lit "# " ++ title)) with title. now rewrite Hs. }
  set (title_line := lit "# " ++ title) in *.
  rewrite parse_spec. cbv zeta. unfold title_of, content_start_idx.
  destruct doc as [|block pre _] using rev_ind.
  - change ([title_line; lit ""] ++ document_lines [])
      with ([title_line] ++ [lit ""]).
    rewrite lines_of_written; auto; [|discriminate].
    cbn [map concat]. rewrite app_nil_r, Hsplit.
    now rewrite Hscan.
  - rewrite (written_document_lines true) by assumption.
    cbn [map concat]. rewrite Hsplit.
    change (split (lit "") NL) with [lit ""]. cbn [app].
    rewrite Hscan. cbn [skipn].
    apply Forall_app in Hdoc. destruct Hdoc as [Hpre Hblock].
    inversion Hblock as [|? ? Hb _]; subst.
    rewrite body_blocks_blank_line.
    rewrite (body_blocks_document true) by assumption.
    rewrite <- (app_nil_r (read_lines block)).
    rewrite (body_blocks_written true) by assumption.
    rewrite !map_app. reflexivity.
Qed.

(** The parser on the text of a document without a title. *)
Lemma parse_written_untitled (doc : list canonical_block) :
  Forall (round_trips false) doc ->
  parse_markdown_to_blocks (join [NL] (document_lines doc))
  = Ok (map to_json (map read_back doc), lit "").
Proof.
  intros Hdoc. destruct doc as [|block pre _] using rev_ind.
  - reflexivity.
  - rewrite parse_spec. cbv zeta. unfold title_of, content_start_idx.
    change (document_lines (pre ++ [block]))
      with ([] ++ document_lines (pre ++ [block])).
    rewrite (written_document_lines false)
      by (assumption || now apply (document_head_solid false)).
    cbn [map concat app].
    apply Forall_app in Hdoc. destruct Hdoc as [Hpre Hblock].
    inversion Hblock as [|? ? Hb _]; subst.
    rewrite title_scan_none.
    + cbn [skipn]. rewrite (body_blocks_document false) by assumption.
      rewrite <- (app_nil_r (read_lines block)).
      rewrite (body_blocks_written false) by assumption.
      rewrite !map_app. reflexivity.
    + apply Forall_app. split;
        [now apply no_title_lines | now apply no_title_line_written].
Qed.

(** * The claims of the specification *)

(** C1 (amended). Take a document of the canonical subset whose title is
    on one line and stripped; whose headings, list items and paragraphs
    have a text that is not empty, on one line and stripped; whose
    paragraphs would not be read as a heading, a list item or a fence;
    whose code has no line that starts with the fence and a language on one
    line; and which, when it has no title, has no paragraph and no line of
    code that starts with ["# "]. Parsing its serialization gives the
    title back and the same blocks, type by type and text by text: the
    blocks themselves, but for the language of a code block, which is read
    back stripped or as ["plain text"]. *)
Theorem round_trip :
  forall (py_format : json -> str) (title : str) (doc : list canonical_block),
    no_newline title = true ->
    strip title = title ->
    Forall (round_trips (nonempty title)) doc ->
    exists md blocks',
      convert_blocks_to_markdown py_format (map to_json doc) (Some title)
      = Ok md
      /\ parse_markdown_to_blocks md = Ok (blocks', title)
      /\ blocks' = map to_json (map read_back doc)
      /\ map block_type blocks' = map (fun b => Some (type_of b)) doc
      /\ map block_content blocks' = map (fun b => Some (content_of b)) doc
      /\ map block_type blocks' = map block_type (map to_json doc)
      /\ map block_content blocks' = map block_content (map to_json doc).
Proof.
  intros py_format title doc Hnl Hs Hdoc.
  unfold convert_blocks_to_markdown. rewrite for_blocks_canonical.
  cbn [bind]. eexists _, (map to_json (map read_back doc)).
  split; [reflexivity|]. split; [|split; [reflexivity|]].
  - destruct title as [|c t].
    + exact (parse_written_untitled doc Hdoc).
    + apply parse_written_titled; (assumption || discriminate).
  - rewrite !map_map. repeat split; apply map_ext; intros block.
    + now rewrite read_back_type, canonical_type.
    + now rewrite read_back_content, canonical_content.
    + apply read_back_type.
    + apply read_back_content.
Qed.

Lemma round_trip_witness :
  exists md blocks',
    convert_blocks_to_markdown no_format
      (map to_json
         [TextBlock Heading_2 (lit "Plan"); TextBlock Bulleted (lit "one");
          TextBlock Numbered (lit "two");
          CodeBlock (text ["x = 1"; ""; "# note"]%string) (lit "python");
          TextBlock Paragraph (lit "# not a title")])
      (Some (lit "Notes"))
    = Ok md
    /\ parse_markdown_to_blocks md = Ok (blocks', lit "Notes")
    /\ blocks'
       = map to_json
           (map read_back
              [TextBlock Heading_2 (lit "Plan"); TextBlock Bulleted (lit "one");
               TextBlock Numbered (lit "two");
               CodeBlock (text ["x = 1"; ""; "# note"]%string) (lit "python");
               TextBlock Paragraph (lit "# not a title")]).
Proof.
  destruct (round_trip no_format (lit "Notes")
              [TextBlock Heading_2 (lit "Plan"); TextBlock Bulleted (lit "one");
               TextBlock Numbered (lit "two");
               CodeBlock (text ["x = 1"; ""; "# note"]%string) (lit "python");
               TextBlock Paragraph (lit "# not a title")])
    as (md & blocks' & H1 & H2 & H3 & _).
  - reflexivity.
  - reflexivity.
  - repeat constructor; try discriminate.
  - exists md, blocks'. auto.
Defined.

(** The claim as the specification words it fails on documents of the
    canonical subset, one for each condition added above: a paragraph
    that reads as a list item changes its type; an empty paragraph is
    lost; whitespace around a text is lost, and so it is around the title;
    a text of two lines becomes two paragraphs; a fence inside code closes
    the code block; a paragraph that starts with ["# "] becomes the title
    of a document that had none; a language of two lines moves its second
    line into the code. *)
Lemma round_trip_fails_without_conditions :
  serialize_then_parse no_format
    [text_block (lit "paragraph") (lit "- x")] (lit "T")
  = Ok ([text_block (lit "bulleted_list_item") (lit "x")], lit "T")
  /\ serialize_then_parse no_format
       [text_block (lit "paragraph") (lit "")] (lit "T")
     = Ok ([], lit "T")
  /\ serialize_then_parse no_format
       [text_block (lit "paragraph") (lit " x")] (lit "T")
     = Ok ([text_block (lit "paragraph") (lit "x")], lit "T")
  /\ serialize_then_parse no_format
       [text_block (lit "paragraph") (lit "x")] (lit " T")
     = Ok ([text_block (lit "paragraph") (lit "x")], lit "T")
  /\ serialize_then_parse no_format
       [text_block (lit "paragraph") (text ["a"; "b"]%string)] (lit "T")
     = Ok ([text_block (lit "paragraph") (lit "a");
            text_block (lit "paragraph") (lit "b")], lit "T")
  /\ serialize_then_parse no_format
       [code_block (text ["a"; "```"; "b"]%string) (lit "py")] (lit "T")
     = Ok ([code_block (lit "a") (lit "py");
            text_block (lit "paragraph") (lit "b");
            code_block (lit "") (lit "plain text")], lit "T")
  /\ serialize_then_parse no_format
       [text_block (lit "paragraph") (lit "# x")] (lit "")
     = Ok ([], lit "x")
  /\ serialize_then_parse no_format
       [code_block (lit "c") (text ["a"; "b"]%string)] (lit "T")
     = Ok ([code_block (text ["b"; "c"]%string) (lit "a")], lit "T")
  /\ map block_type [text_block (lit "bulleted_list_item") (lit "x")]
     <> map block_type [text_block (lit "paragraph") (lit "- x")].
Proof. repeat split; try (vm_compute; reflexivity). discriminate. Qed.

(** C2 (amended). A block that is written is followed by a blank line,
    except the list items [bulleted_list_item], [numbered_list_item] and
    [to_do], which add their one line and nothing after it; a block of the
    expected shape is always written. Two bulleted items follow each other
    directly, and so does the paragraph after them: the blank line comes
    after the paragraph. *)
Theorem blank_line_after_blocks :
  (forall (py_format : json -> str) (md_lines : list str) (block : json)
          (type : str) (md_lines' : list str),
      block_type block = Some type ->
      convert_block py_format md_lines block = Ok md_lines' ->
      (In type blank_after_types ->
       exists form, form <> [] /\ md_lines' = md_lines ++ form ++ [lit ""])
      /\ (In type list_item_types ->
          exists line, line <> [] /\ md_lines' = md_lines ++ [line]))
  /\ (forall (py_format : json -> str) (md_lines : list str) (block : json),
         well_shaped block = true ->
         exists md_lines',
           convert_block py_format md_lines block = Ok md_lines')
  /\ (forall py_format : json -> str,
         convert_blocks_to_markdown py_format
           [text_block (lit "bulleted_list_item") (lit "a");
            text_block (lit "bulleted_list_item") (lit "b");
            text_block (lit "paragraph") (lit "p")] None
         = Ok (text ["- a"; "- b"; "p"; ""]%string))
  /\ (forall py_format : json -> str,
         convert_blocks_to_markdown py_format
           [to_do_block false (lit "t");
            text_block (lit "paragraph") (lit "p")] None
         = Ok (text ["- [ ] t"; "p"; ""]%string))
  /\ (forall py_format : json -> str,
         convert_blocks_to_markdown py_format
           [text_block (lit "paragraph") (lit "p");
            text_block (lit "quote") (lit "q");
            code_block (lit "c") (lit "py")] None
         = Ok (text ["p"; ""; "> q"; ""; "```py"; "c"; "```"; ""]%string)).
Proof.
  split; [|split; [exact convert_block_ok|];
           repeat split; intros py_format; vm_compute; reflexivity].
  intros py_format md_lines block type md_lines' Ht Hc.
  apply block_type_get in Ht. unfold convert_block in Hc.
  rewrite Ht in Hc. cbn [bind] in Hc.
  split; intros Hin; simpl in Hin;
    repeat destruct Hin as [<- | Hin]; try contradiction;
    revert Hc; eval_type_tests; unfold block_text; run_binds;
    intros Hc; injection Hc as <-.
  all: match goal with
       | |- exists form, _ /\ _ ++ [?a; ?b; ?c; _] = _ => exists [a; b; c]
       | |- exists form, _ /\ _ ++ [?a; _] = _ => exists [a]
       | |- exists line, _ /\ _ ++ [?a] = _ => exists a
       end; (split; [discriminate | reflexivity]).
Qed.

Lemma blank_line_after_blocks_witness :
  (exists form,
      form <> []
      /\ [lit "x"; lit "p"; lit ""] = [lit "x"] ++ form ++ [lit ""])
  /\ (exists line,
         line <> [] /\ [lit "x"; lit "- [x] t"] = [lit "x"] ++ [line])
  /\ (exists md_lines',
         convert_block no_format [lit "x"] (to_do_block true (lit "t"))
         = Ok md_lines').
Proof.
  split; [|split].
  - apply (proj1 (proj1 blank_line_after_blocks no_format [lit "x"]
                    (text_block (lit "paragraph") (lit "p")) (lit "paragraph")
                    [lit "x"; lit "p"; lit ""] eq_refl eq_refl)).
    simpl. tauto.
  - apply (proj2 (proj1 blank_line_after_blocks no_format [lit "x"]
                    (to_do_block true (lit "t")) (lit "to_do")
                    [lit "x"; lit "- [x] t"] eq_refl eq_refl)).
    simpl. tauto.
  - apply (proj1 (proj2 blank_line_after_blocks) no_format [lit "x"]
             (to_do_block true (lit "t"))).
    reflexivity.
Defined.

(** The claim as the specification words it fails twice: the line of a
    [to_do] block is followed by the next block's line, not by a blank
    line; and no blank line stands between a group of bulleted items and
    the paragraph after it. *)
Lemma no_blank_line_after_to_do_or_list_group :
  convert_blocks_to_markdown no_format
    [to_do_block false (lit "t"); text_block (lit "paragraph") (lit "p")] None
  = Ok (text ["- [ ] t"; "p"; ""]%string)
  /\ convert_blocks_to_markdown no_format
       [text_block (lit "bulleted_list_item") (lit "a");
        text_block (lit "bulleted_list_item") (lit "b");
        text_block (lit "paragraph") (lit "p")] None
     = Ok (text ["- a"; "- b"; "p"; ""]%string).
Proof. split; vm_compute; reflexivity. Qed.

(** C3 (amended). A body line that starts with none of ["## "], ["### "],
    ["- "] becomes a numbered item exactly when it is not blank, its first
    character is a digit for [str.isdigit] and it holds [". "]; the item's
    text is what follows the first [". "], stripped. Below 128 the digits
    of [str.isdigit] are the ASCII digits. ["3. Buy milk"] gives the
    numbered item ["Buy milk"], and ["A1. note"] gives a paragraph. *)
Theorem numbered_list_classification :
  (forall (fuel : nat) (lines : list str) (i : nat) (blocks : list json)
          (line : str),
      nth_error lines i = Some line ->
      length lines - i <= fuel ->
      startswith line (lit "## ") = false ->
      startswith line (lit "### ") = false ->
      startswith line (lit "- ") = false ->
      (nonempty (strip line) && first_is_digit line
       && contains line (lit ". ") = true ->
       exists before content,
         line = before ++ lit ". " ++ content
         /\ (forall j, j < length before ->
                       startswith (skipn j line) (lit ". ") = false)
         /\ loop_body fuel lines i blocks
            = Ok (i + 1,
                  blocks ++ [text_block (lit "numbered_list_item")
                               (strip content)]))
      /\ (nonempty (strip line) && first_is_digit line
          && contains line (lit ". ") = false ->
          exists i' blocks',
            loop_body fuel lines i blocks = Ok (i', blocks')
            /\ forall content,
                blocks' <> blocks ++ [text_block (lit "numbered_list_item")
                                        content]))
  /\ (forall c : char, (c < 128)%N -> isdigit c = is_ascii_digit c)
  /\ parse_markdown_to_blocks (lit "3. Buy milk")
     = Ok ([text_block (lit "numbered_list_item") (lit "Buy milk")], lit "")
  /\ parse_markdown_to_blocks (lit "A1. note")
     = Ok ([text_block (lit "paragraph") (lit "A1. note")], lit "").
Proof.
  split; [|split; [exact isdigit_ascii | split; vm_compute; reflexivity]].
  intros fuel lines i blocks line Hn Hf H2 H3 Hb.
  pose proof (loop_body_spec fuel lines i blocks line Hn Hf) as Hl.
  unfold classify in Hl. rewrite H2, H3, Hb in Hl. split; intros Hnum.
  - rewrite Hnum in Hl. apply andb_true_iff in Hnum. destruct Hnum as [_ Hc].
    destruct (after_first_spec line (lit ". ") Hc) as (before & Hline & Hfirst).
    exists before, (after_first line (lit ". ")). auto.
  - rewrite Hnum in Hl. rewrite Hl.
    destruct (startswith line fence).
    + eexists _, _. split; [reflexivity|]. intros content H.
      apply app_inv_head in H. discriminate.
    + destruct (nonempty (strip line)).
      * eexists _, _. split; [reflexivity|]. intros content H.
        apply app_inv_head in H. discriminate.
      * eexists _, _. split; [reflexivity|]. intros content.
        apply app_one_neq.
Qed.

Lemma numbered_list_classification_witness :
  (exists before content,
      lit "3. Buy milk" = before ++ lit ". " ++ content
      /\ (forall j, j < length before ->
                    startswith (skipn j (lit "3. Buy milk")) (lit ". ")
                    = false)
      /\ loop_body 1 [lit "3. Buy milk"] 0 []
         = Ok (0 + 1,
               [] ++ [text_block (lit "numbered_list_item") (strip content)]))
  /\ (exists i' blocks',
         loop_body 1 [lit "A1. note"] 0 [] = Ok (i', blocks')
         /\ forall content,
             blocks' <> [] ++ [text_block (lit "numbered_list_item") content]).
Proof.
  split.
  - apply (proj1 (proj1 numbered_list_classification
                    1 [lit "3. Buy milk"] 0 [] (lit "3. Buy milk")
                    eq_refl (le_n 1) eq_refl eq_refl eq_refl)).
    vm_compute. reflexivity.
  - apply (proj2 (proj1 numbered_list_classification
                    1 [lit "A1. note"] 0 [] (lit "A1. note")
                    eq_refl (le_n 1) eq_refl eq_refl eq_refl)).
    vm_compute. reflexivity.
Defined.

(** The claim as the specification words it (an ASCII digit) fails on a
    line that begins with another digit: ["²"] is no ASCII digit, and
    ["². x"] is a numbered item. *)
Lemma numbered_list_not_ascii_only :
  is_ascii_digit 178%N = false
  /\ parse_markdown_to_blocks (178%N :: lit ". x")
     = Ok ([text_block (lit "numbered_list_item") (lit "x")], lit "").
Proof. split; vm_compute; reflexivity. Qed.

(** C4. A body line that starts with the fence opens a code block: the
    language is the rest of the line, stripped, or ["plain text"] when that
    is empty; the lines that follow are gathered as they are up to the
    first line that starts with the fence, which is passed over, or up to
    the end of the input; one code block is written, its text those lines
    joined by newlines. An open fence at the end of the input raises
    nothing. *)
Theorem code_fence_semantics :
  (forall (fuel : nat) (lines : list str) (i : nat) (blocks : list json)
          (line : str),
      nth_error lines i = Some line ->
      length lines - i <= fuel ->
      startswith line fence = true ->
      let language := strip (skipn 3 line) in
      let code_lines := take_while in_fence (skipn (i + 1) lines) in
      loop_body fuel lines i blocks
      = Ok (i + 1 + length code_lines + 1,
            blocks ++ [code_block (join [NL] code_lines)
                         (if nonempty language then language
                          else lit "plain text")])
      /\ firstn (length code_lines) (skipn (i + 1) lines) = code_lines
      /\ Forall (fun l => startswith l fence = false) code_lines
      /\ (forall l, nth_error lines (i + 1 + length code_lines) = Some l ->
                    startswith l fence = true))
  /\ parse_markdown_to_blocks (text ["```js"; "foo"]%string)
     = Ok ([code_block (lit "foo") (lit "js")], lit "")
  /\ parse_markdown_to_blocks
       (text ["```python"; "print(1)"; "print(2)"; "```"]%string)
     = Ok ([code_block (text ["print(1)"; "print(2)"]%string) (lit "python")],
           lit "")
  /\ parse_markdown_to_blocks (text ["```"; "  x  "; ""; "```"; "y"]%string)
     = Ok ([code_block (text ["  x  "; ""]%string) (lit "plain text");
            text_block (lit "paragraph") (lit "y")], lit "").
Proof.
  split; [|repeat split; vm_compute; reflexivity].
  intros fuel lines i blocks line Hn Hf Hfence language code_lines.
  pose proof (loop_body_spec fuel lines i blocks line Hn Hf) as Hl.
  rewrite (classify_fence line Hfence) in Hl. split; [exact Hl|].
  subst code_lines. split; [|split].
  - rewrite <- (take_drop_while in_fence (skipn (i + 1) lines)) at 2.
    rewrite firstn_app, Nat.sub_diag, firstn_all. simpl. apply app_nil_r.
  - pose proof (take_while_all in_fence (skipn (i + 1) lines)) as Hall.
    eapply Forall_impl; [|exact Hall]. intros l Hin. unfold in_fence in Hin.
    now apply negb_true_iff in Hin.
  - intros l Hl'.
    rewrite <- (Nat.add_0_r (i + 1 + _)), <- nth_error_skipn in Hl'.
    rewrite skipn_add, skipn_take_while in Hl'.
    destruct (drop_while in_fence (skipn (i + 1) lines)) as [|x r] eqn:Ed;
      [discriminate|].
    simpl in Hl'. injection Hl' as <-. apply drop_while_head in Ed.
    unfold in_fence in Ed. now apply negb_false_iff in Ed.
Qed.

Lemma code_fence_semantics_witness :
  loop_body 3 [lit "```js"; lit "foo"; lit "```"] 0 []
  = Ok (0 + 1 + 1 + 1, [] ++ [code_block (lit "foo") (lit "js")]).
Proof.
  apply (proj1 (proj1 code_fence_semantics
                  3 [lit "```js"; lit "foo"; lit "```"] 0 [] (lit "```js")
                  eq_refl (le_n 3) eq_refl)).
Defined.

(** C5. Title extraction: the first line that begins with ["# "] gives the
    title (its remainder, stripped); the lines before it give no block and
    the body is read from the line after it. When no line begins with
    ["# "] the title is empty and every line is read as body. The input
    ["# Hello\nBody"] gives the title ["Hello"] and one paragraph
    ["Body"]. *)
Theorem title_extraction :
  (forall (md : str) (pre : list str) (line : str) (post : list str),
      split (strip md) NL = pre ++ line :: post ->
      Forall (fun l => startswith l (lit "# ") = false) pre ->
      startswith line (lit "# ") = true ->
      parse_markdown_to_blocks md
      = Ok (body_blocks post, strip (skipn 2 line))
      /\ body_loop (S (length (split (strip md) NL))) (split (strip md) NL)
           (length pre + 1) []
         = Ok (body_blocks post))
  /\ (forall md : str,
         Forall (fun l => startswith l (lit "# ") = false)
           (split (strip md) NL) ->
         parse_markdown_to_blocks md
         = Ok (body_blocks (split (strip md) NL), lit ""))
  /\ parse_markdown_to_blocks (text ["# Hello"; "Body"]%string)
     = Ok ([text_block (lit "paragraph") (lit "Body")], lit "Hello").
Proof.
  split; [|split].
  - intros md pre line post Hs Hpre Hline.
    pose proof (parse_spec md) as Hp. cbv zeta in Hp.
    unfold title_of, content_start_idx in Hp. rewrite Hs in *.
    rewrite (title_scan_found pre line post Hpre Hline 0) in Hp.
    rewrite skipn_past in Hp. split; [exact Hp|].
    rewrite body_loop_spec by lia.
    replace (length pre + 1) with (0 + length pre + 1) by lia.
    now rewrite skipn_past.
  - intros md Hno. pose proof (parse_spec md) as Hp. cbv zeta in Hp.
    unfold title_of, content_start_idx in Hp.
    now rewrite (title_scan_none _ Hno 0) in Hp.
  - vm_compute. reflexivity.
Qed.

Lemma title_extraction_witness :
  parse_markdown_to_blocks (text ["intro"; "# Hello"; "Body"]%string)
  = Ok (body_blocks [lit "Body"], strip (skipn 2 (lit "# Hello")))
  /\ parse_markdown_to_blocks (text ["## Part"; "Body"]%string)
     = Ok (body_blocks (split (strip (text ["## Part"; "Body"]%string)) NL),
           lit "").
Proof.
  split.
  - apply (proj1 title_extraction (text ["intro"; "# Hello"; "Body"]%string)
             [lit "intro"] (lit "# Hello") [lit "Body"]).
    + vm_compute. reflexivity.
    + repeat constructor.
    + vm_compute. reflexivity.
  - apply (proj1 (proj2 title_extraction) (text ["## Part"; "Body"]%string)).
    vm_compute. repeat constructor.
Defined.

(** C6. The parser returns for every input: its loops end within the
    fuel and nothing raises, the first character being read only on a line
    that is not blank and the second item of the split only when [". "]
    is in the line. A blank line adds no block. The empty input and
    ["\n\n\n"] give the empty title and no block. *)
Theorem parser_total :
  (forall md : str,
      exists blocks title, parse_markdown_to_blocks md = Ok (blocks, title))
  /\ (forall line : str, exists b, numbered_test line = Ok b)
  /\ (forall line : str,
         numbered_test line = Ok true ->
         exists content, getitem (split1 line (lit ". ")) 1 = Ok content)
  /\ (forall (fuel : nat) (lines : list str) (i : nat) (blocks : list json)
             (line : str),
         nth_error lines i = Some line ->
         strip line = [] ->
         loop_body fuel lines i blocks = Ok (i + 1, blocks))
  /\ parse_markdown_to_blocks (lit "") = Ok ([], lit "")
  /\ parse_markdown_to_blocks [NL; NL; NL] = Ok ([], lit "").
Proof.
  split; [|split; [|split; [|split; [|split; vm_compute; reflexivity]]]].
  - intros md. rewrite parse_spec. eauto.
  - intros line. rewrite numbered_test_spec. eauto.
  - intros line. rewrite numbered_test_spec. intros H. injection H as H.
    apply andb_true_iff in H. destruct H as [_ Hc].
    rewrite (split1_second _ _ Hc). eauto.
  - intros fuel lines i blocks line Hn Hs. unfold loop_body.
    replace (getitem lines i) with (Ok line)
      by (unfold getitem; now rewrite Hn).
    simpl bind.
    rewrite (blank_startswith line (lit "## ") Hs eq_refl).
    rewrite (blank_startswith line (lit "### ") Hs eq_refl).
    rewrite (blank_startswith line (lit "- ") Hs eq_refl).
    rewrite numbered_test_spec, Hs. simpl.
    now rewrite (blank_startswith line fence Hs eq_refl).
Qed.

Lemma parser_total_witness :
  (exists content, getitem (split1 (lit "3. Buy milk") (lit ". ")) 1 = Ok content)
  /\ loop_body 0 [lit "a"; lit "   "; lit "b"] 1 [] = Ok (1 + 1, []).
Proof.
  split.
  - apply (proj1 (proj2 (proj2 parser_total)) (lit "3. Buy milk")).
    vm_compute. reflexivity.
  - apply (proj1 (proj2 (proj2 (proj2 parser_total)))
             0 [lit "a"; lit "   "; lit "b"] 1 [] (lit "   ") eq_refl).
    vm_compute. reflexivity.
Defined.

(** C7 (amended). On blocks of the expected shape the serializer returns
    and raises nothing. A block whose type is none of those the serializer
    writes, or that has no type, adds no line, wherever it stands: the
    blocks around it are written as they are without it. *)
Theorem silent_skip :
  (forall (py_format : json -> str) (blocks : list json) (title : option str),
      Forall (fun block => well_shaped block = true) blocks ->
      exists md, convert_blocks_to_markdown py_format blocks title = Ok md)
  /\ (forall (py_format : json -> str) (md_lines : list str) (block : json),
         is_dict block = true ->
         (forall type, block_type block = Some type ->
                       ~ In type handled_types) ->
         convert_block py_format md_lines block = Ok md_lines)
  /\ (forall (py_format : json -> str) (blocks1 : list json) (block : json)
             (blocks2 : list json) (title : option str),
         is_dict block = true ->
         (forall type, block_type block = Some type ->
                       ~ In type handled_types) ->
         convert_blocks_to_markdown py_format (blocks1 ++ block :: blocks2)
           title
         = convert_blocks_to_markdown py_format (blocks1 ++ blocks2) title).
Proof.
  split; [|split].
  - intros py_format blocks title Hw. unfold convert_blocks_to_markdown.
    destruct (for_blocks_ok py_format blocks Hw (title_lines title)) as [l ->].
    cbn [bind]. eauto.
  - exact convert_block_unhandled.
  - intros py_format blocks1 block blocks2 title Hd Hun.
    unfold convert_blocks_to_markdown. rewrite !for_blocks_app.
    destruct (for_blocks py_format blocks1 (title_lines title)); cbn [bind];
      try reflexivity.
    simpl for_blocks. now rewrite (convert_block_unhandled _ _ _ Hd Hun).
Qed.

Lemma silent_skip_witness :
  (exists md,
      convert_blocks_to_markdown no_format
        [text_block (lit "paragraph") (lit "p");
         JDict [(lit "type", JStr (lit "divider")); (lit "divider", JNone)];
         to_do_block true (lit "t"); JDict []] (Some (lit "T"))
      = Ok md)
  /\ convert_blocks_to_markdown no_format
       ([text_block (lit "paragraph") (lit "p")]
          ++ JDict [(lit "type", JStr (lit "divider")); (lit "divider", JNone)]
          :: [text_block (lit "quote") (lit "q")]) None
     = convert_blocks_to_markdown no_format
         ([text_block (lit "paragraph") (lit "p")]
            ++ [text_block (lit "quote") (lit "q")]) None.
Proof.
  split.
  - apply (proj1 silent_skip no_format). repeat constructor.
  - apply (proj2 (proj2 silent_skip) no_format
             [text_block (lit "paragraph") (lit "p")]
             (JDict [(lit "type", JStr (lit "divider"));
                     (lit "divider", JNone)])
             [text_block (lit "quote") (lit "q")] None eq_refl).
    intros type Ht. injection Ht as <-. vm_compute.
    intuition discriminate.
Defined.

(** The claim as the specification words it (for every block list) fails:
    a paragraph whose payload is [None] makes the serializer raise. *)
Lemma serializer_raises_on_malformed_block :
  convert_blocks_to_markdown no_format
    [JDict [(lit "type", JStr (lit "paragraph")); (lit "paragraph", JNone)]]
    None
  = Raise AttributeError.
Proof. vm_compute. reflexivity. Qed.

(** C8. Every block the parser returns has one of the types [heading_2],
    [heading_3], [bulleted_list_item], [numbered_list_item], [code],
    [paragraph]; none is a [to_do] or a [quote]. *)
Theorem parser_block_types :
  forall md : str,
    exists blocks title,
      parse_markdown_to_blocks md = Ok (blocks, title)
      /\ Forall (fun block =>
                   exists type,
                     block_type block = Some type
                     /\ In type parser_types
                     /\ type <> lit "to_do" /\ type <> lit "quote") blocks.
Proof.
  intros md. rewrite parse_spec. eexists _, _. split; [reflexivity|].
  eapply Forall_impl; [|apply scan_lines_parser_blocks].
  intros block (type & Ht & Hin). exists type. split; [exact Ht|].
  split; [exact Hin|].
  simpl in Hin. repeat destruct Hin as [<- | Hin]; try contradiction;
    split; discriminate.
Qed.

(** C9. A [heading_1] block is written, not skipped: at its place come the
    line ["# "] followed by its text, and a blank line. *)
Theorem heading_1_serialized :
  (forall (py_format : json -> str) (md_lines : list str) (block : json)
          (text_content : str),
      block_type block = Some (lit "heading_1") ->
      block_text block (lit "heading_1") = Ok text_content ->
      convert_block py_format md_lines block
      = Ok (md_lines ++ [lit "# " ++ text_content; lit ""]))
  /\ (forall (py_format : json -> str) (blocks1 : list json) (block : json)
             (blocks2 : list json) (title : option str) (text_content : str),
         block_type block = Some (lit "heading_1") ->
         block_text block (lit "heading_1") = Ok text_content ->
         convert_blocks_to_markdown py_format (blocks1 ++ block :: blocks2)
           title
         = (before <- for_blocks py_format blocks1 (title_lines title) ;;
            md_lines <- for_blocks py_format blocks2
                          (before ++ [lit "# " ++ text_content; lit ""]) ;;
            Ok (join [NL] md_lines)))
  /\ (forall py_format : json -> str,
         convert_blocks_to_markdown py_format
           [text_block (lit "heading_1") (lit "Top");
            text_block (lit "paragraph") (lit "p")] None
         = Ok (text ["# Top"; ""; "p"; ""]%string)).
Proof.
  assert (H1 : forall py_format md_lines block text_content,
             block_type block = Some (lit "heading_1") ->
             block_text block (lit "heading_1") = Ok text_content ->
             convert_block py_format md_lines block
             = Ok (md_lines ++ [lit "# " ++ text_content; lit ""])).
  { intros py_format md_lines block text_content Ht Htext.
    apply block_type_get in Ht. unfold convert_block. rewrite Ht.
    simpl bind. eval_type_tests. rewrite Htext. reflexivity. }
  split; [exact H1 | split].
  - intros py_format blocks1 block blocks2 title text_content Ht Htext.
    unfold convert_blocks_to_markdown. rewrite for_blocks_app.
    rewrite bind_assoc.
    destruct (for_blocks py_format blocks1 (title_lines title)); simpl;
      try reflexivity.
    now rewrite (H1 py_format a block text_content Ht Htext).
  - intros py_format. vm_compute. reflexivity.
Qed.

Lemma heading_1_serialized_witness :
  convert_block no_format [lit "intro"]
    (text_block (lit "heading_1") (lit "Top"))
  = Ok ([lit "intro"] ++ [lit "# " ++ lit "Top"; lit ""])
  /\ convert_blocks_to_markdown no_format
       ([text_block (lit "paragraph") (lit "p")]
          ++ text_block (lit "heading_1") (lit "Top")
          :: [text_block (lit "quote") (lit "q")]) (Some (lit "T"))
     = (before <- for_blocks no_format
                    [text_block (lit "paragraph") (lit "p")]
                    (title_lines (Some (lit "T"))) ;;
        md_lines <- for_blocks no_format [text_block (lit "quote") (lit "q")]
                      (before ++ [lit "# " ++ lit "Top"; lit ""]) ;;
        Ok (join [NL] md_lines)).
Proof.
  split.
  - apply (proj1 heading_1_serialized no_format [lit "intro"]
             (text_block (lit "heading_1") (lit "Top")) (lit "Top"));
      reflexivity.
  - apply (proj1 (proj2 heading_1_serialized) no_format
             [text_block (lit "paragraph") (lit "p")]
             (text_block (lit "heading_1") (lit "Top"))
             [text_block (lit "quote") (lit "q")] (Some (lit "T"))
             (lit "Top"));
      reflexivity.
Defined.

(** C10. The input is stripped before it is split into lines: whitespace
    before and after the text changes nothing. An indented first line
    ["   # Hello"] is the title line, and the blank lines that end an open
    fence are not part of the code. *)
Theorem parser_strips_input :
  (forall md w1 w2 : str,
      forallb isspace w1 = true -> forallb isspace w2 = true ->
      parse_markdown_to_blocks (w1 ++ md ++ w2) = parse_markdown_to_blocks md)
  /\ parse_markdown_to_blocks (lit "   # Hello") = Ok ([], lit "Hello")
  /\ parse_markdown_to_blocks (text ["```js"; "foo"; ""; "  "; ""]%string)
     = Ok ([code_block (lit "foo") (lit "js")], lit "").
Proof.
  split; [|split; vm_compute; reflexivity].
  intros md w1 w2 H1 H2. unfold parse_markdown_to_blocks.
  now rewrite (strip_pad w1 md w2 H1 H2).
Qed.

Lemma parser_strips_input_witness :
  parse_markdown_to_blocks (lit "  " ++ lit "# T" ++ [NL; 9%N])
  = parse_markdown_to_blocks (lit "# T").
Proof.
  apply (proj1 parser_strips_input (lit "# T") (lit "  ") [NL; 9%N]);
    reflexivity.
Defined.

(** * More of the code *)

(** ** [extract_uuid] *)

Lemma search_hex32_found (s h : str) :
  search_hex32 s = Some h ->
  length h = 32 /\ forallb is_hex h = true
  /\ exists before after,
      s = before ++ h ++ after
      /\ forall k, k < length before -> hex32_here (skipn k s) = false.
Proof.
  induction s as [|c s IH].
  - simpl. discriminate.
  - cbn [search_hex32]. destruct (hex32_here (c :: s)) eqn:E.
    + intros H. unfold hex32_here in E.
      apply andb_true_iff in E. destruct E as [El Eh].
      apply Nat.leb_le in El. clear IH. remember (c :: s) as t eqn:Et.
      assert (Hh : h = firstn 32 t) by congruence. clear H. subst h.
      split; [|split; [exact Eh|]].
      * now apply firstn_length_le.
      * exists [], (skipn 32 t). split.
        -- exact (eq_sym (firstn_skipn 32 t)).
        -- intros k Hk. simpl in Hk. lia.
    + intros H. destruct (IH H) as (Hl & Hh & before & after & Hs & Hk).
      split; [exact Hl|]. split; [exact Hh|].
      exists (c :: before), after. split.
      * simpl. now rewrite Hs.
      * intros [|k] Hlt; [exact E|]. simpl. apply Hk. simpl in Hlt. lia.
Qed.

Lemma search_hex32_none (s : str) :
  search_hex32 s = None <-> forall k, hex32_here (skipn k s) = false.
Proof.
  induction s as [|c s IH]; cbn [search_hex32].
  - split; [|reflexivity]. intros _ k. now rewrite skipn_nil.
  - destruct (hex32_here (c :: s)) eqn:E.
    + split; [discriminate|]. intros H. specialize (H 0). simpl in H.
      congruence.
    + rewrite IH. split.
      * intros H [|k]; [exact E | apply H].
      * intros H k. apply (H (S k)).
Qed.

Lemma forallb_false_in {A : Type} (p : A -> bool) (l : list A) (x : A) :
  In x l -> p x = false -> forallb p l = false.
Proof.
  intros Hin Hp. destruct (forallb p l) eqn:E; [|reflexivity].
  rewrite forallb_forall in E. rewrite (E x Hin) in Hp. discriminate.
Qed.

(** No run of 32 hexadecimal digits is left where a dash stands among the
    first 32 characters. *)
Lemma hex32_here_dash (s : str) :
  In DASH (firstn 32 s) -> hex32_here s = false.
Proof.
  intros H. unfold hex32_here. rewrite (forallb_false_in is_hex _ DASH H eq_refl).
  apply andb_false_r.
Qed.

Lemma hex32_here_short (s : str) : length s < 32 -> hex32_here s = false.
Proof.
  intros H. unfold hex32_here. apply Nat.leb_gt in H. now rewrite H.
Qed.

Lemma length_32 (h : str) :
  length h = 32 ->
  exists a b c d e : str,
    h = a ++ b ++ c ++ d ++ e
    /\ length a = 8 /\ length b = 4 /\ length c = 4 /\ length d = 4
    /\ length e = 12
    /\ slice h 0 8 = a /\ slice h 8 12 = b /\ slice h 12 16 = c
    /\ slice h 16 20 = d /\ skipn 20 h = e.
Proof.
  intros H.
  exists (firstn 8 h), (firstn 4 (skipn 8 h)), (firstn 4 (skipn 12 h)),
    (firstn 4 (skipn 16 h)), (skipn 20 h).
  repeat split; try reflexivity;
    try (rewrite length_firstn, ?length_skipn; lia);
    try (rewrite length_skipn; lia).
  rewrite <- (firstn_skipn 8 h) at 1. f_equal.
  rewrite <- (firstn_skipn 4 (skipn 8 h)) at 1. f_equal.
  rewrite <- skipn_add. simpl Nat.add.
  rewrite <- (firstn_skipn 4 (skipn 12 h)) at 1. f_equal.
  rewrite <- skipn_add. simpl Nat.add.
  rewrite <- (firstn_skipn 4 (skipn 16 h)) at 1. f_equal.
  now rewrite <- skipn_add.
Qed.

Lemma is_hex_not_dash (c : char) : is_hex c = true -> (c =? DASH)%N = false.
Proof.
  unfold is_hex, DASH. intros H. apply N.eqb_neq. intros ->.
  discriminate.
Qed.

Lemma undashed_hex (s : str) : forallb is_hex s = true -> undashed s = s.
Proof.
  induction s as [|c s IH]; simpl; [reflexivity|].
  intros H. apply andb_true_iff in H. destruct H as [Hc Hs].
  rewrite (is_hex_not_dash c Hc). simpl. now rewrite (IH Hs).
Qed.

Lemma undashed_app (s t : str) : undashed (s ++ t) = undashed s ++ undashed t.
Proof. apply filter_app. Qed.

(** The dashed form of 32 hexadecimal digits: 36 characters, the digits
    in their order once the dashes are taken away. *)
Lemma dashed_shape (h : str) :
  length h = 32 -> forallb is_hex h = true ->
  length (dashed h) = 36 /\ undashed (dashed h) = h
  /\ nth_error (dashed h) 8 = Some DASH /\ nth_error (dashed h) 13 = Some DASH
  /\ nth_error (dashed h) 18 = Some DASH
  /\ nth_error (dashed h) 23 = Some DASH.
Proof.
  intros Hl Hh. split; [|split].
  - do 32 (destruct h as [|? h]; [discriminate Hl|]).
    destruct h; [reflexivity | simpl in Hl; lia].
  - unfold dashed. destruct (length_32 h Hl)
      as (a & b & c & d & e & E & _ & _ & _ & _ & _ & -> & -> & -> & -> & ->).
    rewrite E in Hh. rewrite !forallb_app in Hh.
    repeat (apply andb_true_iff in Hh; destruct Hh as [? Hh]).
    rewrite !undashed_app.
    rewrite (undashed_hex a), (undashed_hex b), (undashed_hex c),
      (undashed_hex d), (undashed_hex e) by assumption.
    change (undashed (lit "-")) with (@nil char).
    exact (eq_sym E).
  - do 32 (destruct h as [|? h]; [discriminate Hl|]).
    destruct h; [repeat split; reflexivity | simpl in Hl; lia].
Qed.

(** The dashed form holds no run of 32 hexadecimal digits. *)
Lemma dashed_no_run (h : str) :
  length h = 32 -> search_hex32 (dashed h) = None.
Proof.
  intros Hl. apply search_hex32_none. intros k.
  do 32 (destruct h as [|? h]; [discriminate Hl|]).
  destruct h; [|simpl in Hl; lia].
  do 5 (destruct k as [|k];
        [apply hex32_here_dash; cbn;
         repeat (first [left; reflexivity | right])|]).
  apply hex32_here_short. rewrite length_skipn.
  change (length (dashed _)) with 36. lia.
Qed.

Lemma firstn_exact {A : Type} (h after : list A) (n : nat) :
  length h = n -> firstn n (h ++ after) = h.
Proof.
  intros <-. rewrite firstn_app, Nat.sub_diag, firstn_all. simpl.
  apply app_nil_r.
Qed.

Lemma search_hex32_first (before h after : str) :
  length h = 32 -> forallb is_hex h = true ->
  (forall k, k < length before ->
             hex32_here (skipn k (before ++ h ++ after)) = false) ->
  search_hex32 (before ++ h ++ after) = Some h.
Proof.
  intros Hl Hh. induction before as [|c before IH]; intros Hfirst.
  - simpl app.
    assert (E : hex32_here (h ++ after) = true).
    { unfold hex32_here. rewrite (firstn_exact h after 32 Hl), Hh.
      rewrite length_app, Hl. reflexivity. }
    destruct h as [|x h]; [discriminate Hl|].
    change ((x :: h) ++ after) with (x :: h ++ after) in *.
    cbn [search_hex32]. rewrite E. f_equal.
    exact (firstn_exact (x :: h) after 32 Hl).
  - change ((c :: before) ++ h ++ after) with (c :: before ++ h ++ after).
    cbn [search_hex32].
    assert (H0 : hex32_here (c :: before ++ h ++ after) = false)
      by (apply (Hfirst 0); simpl; lia).
    rewrite H0. apply IH.
    intros k Hk. apply (Hfirst (S k)). simpl. lia.
Qed.

(** X1. [extract_uuid] finds the first run of 32 hexadecimal digits of its
    argument and returns it in the form 8-4-4-4-12: 36 characters with a
    dash at the places 8, 13, 18 and 23, which are the 32 digits once the
    dashes are taken away. An argument without such a run is returned as
    it is. *)
Theorem extract_uuid_spec :
  forall uri : str,
    (exists before h after,
        uri = before ++ h ++ after
        /\ length h = 32 /\ forallb is_hex h = true
        /\ (forall k, k < length before -> hex32_here (skipn k uri) = false)
        /\ extract_uuid uri = dashed h
        /\ length (extract_uuid uri) = 36
        /\ undashed (extract_uuid uri) = h
        /\ nth_error (extract_uuid uri) 8 = Some DASH
        /\ nth_error (extract_uuid uri) 13 = Some DASH
        /\ nth_error (extract_uuid uri) 18 = Some DASH
        /\ nth_error (extract_uuid uri) 23 = Some DASH)
    \/ ((forall k, hex32_here (skipn k uri) = false)
        /\ extract_uuid uri = uri).
Proof.
  intros uri. unfold extract_uuid.
  destruct (search_hex32 uri) as [h|] eqn:E.
  - left. destruct (search_hex32_found uri h E)
      as (Hl & Hh & before & after & Hs & Hk).
    destruct (dashed_shape h Hl Hh) as (H36 & Hu & H8 & H13 & H18 & H23).
    exists before, h, after. repeat split; assumption.
  - right. split; [|reflexivity]. now apply search_hex32_none.
Qed.

(** X2. The run of 32 hexadecimal digits that [extract_uuid] dashes is the
    leftmost one of its argument. *)
Theorem extract_uuid_first_run :
  forall before h after : str,
    length h = 32 -> forallb is_hex h = true ->
    (forall k, k < length before ->
               hex32_here (skipn k (before ++ h ++ after)) = false) ->
    extract_uuid (before ++ h ++ after) = dashed h.
Proof.
  intros before h after Hl Hh Hfirst. unfold extract_uuid.
  now rewrite (search_hex32_first before h after Hl Hh Hfirst).
Qed.

Lemma extract_uuid_first_run_witness :
  extract_uuid
    (lit "https://www.notion.so/Plan-"
       ++ lit "0123456789abcdef0123456789abcdef" ++ lit "?pvs=4")
  = dashed (lit "0123456789abcdef0123456789abcdef").
Proof.
  apply (extract_uuid_first_run (lit "https://www.notion.so/Plan-")
           (lit "0123456789abcdef0123456789abcdef") (lit "?pvs=4")).
  - reflexivity.
  - reflexivity.
  - intros k Hk.
    do 27 (destruct k as [|k]; [reflexivity|]).
    simpl in Hk. lia.
Defined.

(** X3. [extract_uuid] changes nothing in what it has returned: a dashed
    identifier is returned as it is. *)
Theorem extract_uuid_idempotent :
  forall uri : str, extract_uuid (extract_uuid uri) = extract_uuid uri.
Proof.
  intros uri. unfold extract_uuid at 2 3.
  destruct (search_hex32 uri) as [h|] eqn:E.
  - destruct (search_hex32_found uri h E) as (Hl & _).
    unfold extract_uuid. now rewrite (dashed_no_run h Hl).
  - unfold extract_uuid. now rewrite E.
Qed.

(** ** [_markdown_to_blocks] *)

Lemma for_lines_spec (lines : list str) :
  forall blocks,
    for_lines lines blocks
    = blocks ++ map line_block (filter nonempty (map strip lines)).
Proof.
  induction lines as [|line lines IH]; intros blocks.
  - simpl. now rewrite app_nil_r.
  - cbn [for_lines map filter]. destruct (nonempty (strip line)).
    + cbn [negb]. rewrite IH. cbn [map]. now rewrite <- app_assoc.
    + cbn [negb]. apply IH.
Qed.

Lemma strip_space_cons (c : char) (s : str) :
  isspace c = true -> strip (c :: s) = strip s.
Proof.
  intros Hc. rewrite <- (app_nil_r s) at 1.
  apply (strip_pad [c] s []); [|reflexivity].
  simpl. now rewrite Hc.
Qed.

Lemma strip_space_app (s w : str) :
  forallb isspace w = true -> strip (s ++ w) = strip s.
Proof. intros Hw. now apply (strip_pad [] s w). Qed.

Lemma strip_blank (w : str) : forallb isspace w = true -> strip w = [].
Proof.
  intros Hw. rewrite <- (app_nil_r w).
  exact (strip_pad w [] [] Hw eq_refl).
Qed.

Lemma blank_strip (s : str) : strip s = [] -> forallb isspace s = true.
Proof.
  intros H. destruct (strip_decompose s) as (w1 & w2 & E & H1 & H2).
  rewrite H in E. rewrite E. simpl. rewrite forallb_app.
  now rewrite H1, H2.
Qed.

Lemma isspace_NL : isspace NL = true.
Proof. reflexivity. Qed.

Lemma split_cons (c : char) (s : str) :
  split (c :: s) NL
  = if (c =? NL)%N then [] :: split s NL
    else (c :: hd [] (split s NL)) :: tl (split s NL).
Proof.
  cbn [split]. destruct (c =? NL)%N; [reflexivity|].
  destruct (split s NL) eqn:E; [|reflexivity].
  now destruct (split_not_nil s NL).
Qed.

Lemma hd_tl {A : Type} (d : A) (l : list A) : l <> [] -> l = hd d l :: tl l.
Proof. destruct l; [congruence | reflexivity]. Qed.

Lemma solid_cons (l : str) (ls : list str) :
  filter nonempty (map strip (l :: ls))
  = (if nonempty (strip l) then [strip l] else [])
      ++ filter nonempty (map strip ls).
Proof. cbn [map filter]. now destruct (nonempty (strip l)). Qed.

Ltac split_head x p ps E :=
  destruct (split x NL) as [|p ps] eqn:E;
  [now destruct (split_not_nil x NL)|]; cbn [hd tl] in *.

Lemma solid_lines_lead (w s : str) :
  forallb isspace w = true -> solid_lines (w ++ s) = solid_lines s.
Proof.
  unfold solid_lines. induction w as [|c w IH]; intros Hw; [reflexivity|].
  simpl in Hw. apply andb_true_iff in Hw. destruct Hw as [Hc Hw].
  specialize (IH Hw).
  change ((c :: w) ++ s) with (c :: w ++ s). rewrite split_cons.
  split_head (w ++ s) p ps E. destruct (c =? NL)%N.
  - rewrite solid_cons. change (strip []) with (@nil char).
    cbn [nonempty app]. exact IH.
  - rewrite solid_cons, (strip_space_cons _ _ Hc), <- solid_cons.
    exact IH.
Qed.

Lemma split_blank_lines (w : str) :
  forallb isspace w = true ->
  Forall (fun l => forallb isspace l = true) (split w NL).
Proof.
  induction w as [|c w IH]; intros Hw.
  - repeat constructor.
  - simpl in Hw. apply andb_true_iff in Hw. destruct Hw as [Hc Hw].
    specialize (IH Hw). rewrite split_cons.
    split_head w p ps E. destruct (c =? NL)%N.
    + constructor; [reflexivity | exact IH].
    + inversion IH as [|? ? Hh Ht]; subst. constructor; [|exact Ht].
      simpl. now rewrite Hc, Hh.
Qed.

Lemma solid_blank_lines (ls : list str) :
  Forall (fun l => forallb isspace l = true) ls ->
  filter nonempty (map strip ls) = [].
Proof.
  induction 1 as [|l ls Hl _ IH]; [reflexivity|].
  rewrite solid_cons, (strip_blank l Hl). exact IH.
Qed.

Lemma split_trail (w : str) :
  forallb isspace w = true ->
  forall s,
    exists w',
      forallb isspace w' = true
      /\ hd [] (split (s ++ w) NL) = hd [] (split s NL) ++ w'
      /\ filter nonempty (map strip (tl (split (s ++ w) NL)))
         = filter nonempty (map strip (tl (split s NL))).
Proof.
  intros Hw. induction s as [|c s IH].
  - pose proof (split_blank_lines w Hw) as Hb. cbn [app].
    split_head w p ps E.
    inversion Hb as [|? ? Hh Ht]; subst.
    exists p. repeat split; [exact Hh|].
    now rewrite (solid_blank_lines _ Ht).
  - destruct IH as (w' & Hw' & Hhd & Htl).
    change ((c :: s) ++ w) with (c :: s ++ w). rewrite !split_cons.
    split_head (s ++ w) q qs E. split_head s p ps E'.
    destruct (c =? NL)%N.
    + exists []. repeat split. cbn [hd tl].
      rewrite !solid_cons, Htl, Hhd. now rewrite (strip_space_app _ _ Hw').
    + exists w'. repeat split; [exact Hw' | | exact Htl].
      cbn [hd]. now rewrite Hhd.
Qed.

Lemma solid_lines_trail (s w : str) :
  forallb isspace w = true -> solid_lines (s ++ w) = solid_lines s.
Proof.
  intros Hw. unfold solid_lines.
  destruct (split_trail w Hw s) as (w' & Hw' & Hhd & Htl).
  split_head (s ++ w) q qs E. split_head s p ps E'.
  rewrite !solid_cons, Htl, Hhd. now rewrite (strip_space_app _ _ Hw').
Qed.

Lemma solid_lines_strip (s : str) : solid_lines (strip s) = solid_lines s.
Proof.
  destruct (strip_decompose s) as (w1 & w2 & E & H1 & H2).
  rewrite E at 2.
  now rewrite (solid_lines_lead _ _ H1), (solid_lines_trail _ _ H2).
Qed.

Lemma markdown_to_blocks_solid (markdown : str) :
  _markdown_to_blocks markdown = map line_block (solid_lines markdown).
Proof.
  unfold _markdown_to_blocks. rewrite for_lines_spec. cbn [app].
  change (filter nonempty (map strip (split (strip markdown) NL)))
    with (solid_lines (strip markdown)).
  now rewrite solid_lines_strip.
Qed.

Lemma in_strip (c : char) (s : str) : In c (strip s) -> In c s.
Proof.
  intros H. destruct (strip_decompose s) as (w1 & w2 & E & _).
  rewrite E. apply in_or_app. right. apply in_or_app. now left.
Qed.

(** A line that gives a block is stripped, is not empty and holds no
    newline. *)
Lemma solid_lines_solid (markdown : str) :
  Forall (fun l => strip l = l /\ head_solid l /\ tail_solid l /\ ~ In NL l)
    (solid_lines markdown).
Proof.
  unfold solid_lines.
  pose proof (split_lines_no_sep markdown NL) as H.
  induction H as [|l ls Hl _ IH]; [constructor|].
  rewrite solid_cons. destruct (nonempty (strip l)) eqn:E; [|exact IH].
  cbn [app]. constructor; [|exact IH].
  assert (Hne : strip l <> []) by (destruct (strip l); [discriminate | congruence]).
  destruct (trimmed_solid (strip l) (strip_idem l) Hne) as [Hh Ht].
  repeat split; try assumption.
  - apply strip_idem.
  - intros Hin. apply Hl. now apply in_strip.
Qed.

Lemma tail_solid_after (p : str) (c : char) (rest : str) :
  isspace c = true -> tail_solid (p ++ c :: rest) -> tail_solid rest.
Proof.
  intros Hc (u & d & E & Hd).
  destruct (exists_last (l := rest)) as (r & x & Hr).
  - intros ->. change (p ++ [c]) with (p ++ [c]) in E.
    apply app_inj_tail in E. destruct E as [_ <-]. congruence.
  - subst rest. exists r, x. split; [reflexivity|].
    change (p ++ c :: r ++ [x]) with (p ++ (c :: r) ++ [x]) in E.
    rewrite app_assoc in E. apply app_inj_tail in E.
    destruct E as [_ <-]. exact Hd.
Qed.

Lemma in_skipn {A : Type} (x : A) (n : nat) (l : list A) :
  In x (skipn n l) -> In x l.
Proof.
  intros H. rewrite <- (firstn_skipn n l). apply in_or_app. now right.
Qed.

Lemma line_block_shape (line : str) :
  tail_solid line -> ~ In NL line ->
  exists type content,
    line_block line = text_block type content
    /\ In type server_types /\ tail_solid content /\ ~ In NL content.
Proof.
  intros Ht Hn. unfold line_block.
  destruct (startswith line (lit "# ")) eqn:E1;
    [|destruct (startswith line (lit "## ")) eqn:E2;
      [|destruct (startswith line (lit "### ")) eqn:E3;
        [|destruct (startswith line (lit "- ")) eqn:E4]]].
  all: try match goal with
           | E : startswith _ _ = true |- _ =>
               apply startswith_iff in E; destruct E as [r Er]
           end.
  - exists (lit "heading_1"), (skipn 2 line). subst line.
    repeat split; [simpl; tauto | | intros H; apply Hn; now apply in_skipn in H].
    exact (tail_solid_after (lit "#") 32%N r eq_refl Ht).
  - exists (lit "heading_2"), (skipn 3 line). subst line.
    repeat split; [simpl; tauto | | intros H; apply Hn; now apply in_skipn in H].
    exact (tail_solid_after (lit "##") 32%N r eq_refl Ht).
  - exists (lit "heading_3"), (skipn 4 line). subst line.
    repeat split; [simpl; tauto | | intros H; apply Hn; now apply in_skipn in H].
    exact (tail_solid_after (lit "###") 32%N r eq_refl Ht).
  - exists (lit "bulleted_list_item"), (skipn 2 line). subst line.
    repeat split; [simpl; tauto | | intros H; apply Hn; now apply in_skipn in H].
    exact (tail_solid_after (lit "-") 32%N r eq_refl Ht).
  - exists (lit "paragraph"), line. repeat split; try assumption.
    simpl; tauto.
Qed.

Lemma convert_line_block (py_format : json -> str) (md_lines : list str)
    (line : str) :
  exists trail,
    (trail = [] \/ trail = [lit ""])
    /\ convert_block py_format md_lines (line_block line)
       = Ok (md_lines ++ line :: trail).
Proof.
  rewrite convert_block_lines. unfold line_block.
  destruct (startswith line (lit "# ")) eqn:E1;
    [|destruct (startswith line (lit "## ")) eqn:E2;
      [|destruct (startswith line (lit "### ")) eqn:E3;
        [|destruct (startswith line (lit "- ")) eqn:E4]]].
  all: try match goal with
           | E : startswith _ _ = true |- _ =>
               apply startswith_iff in E; destruct E as [r ->]
           end.
  - exists [lit ""]. split; [now right|].
    change (skipn 2 (lit "# " ++ r)) with r.
    cbv -[app]. rewrite ?app_nil_r. reflexivity.
  - exists [lit ""]. split; [now right|].
    change (skipn 3 (lit "## " ++ r)) with r.
    cbv -[app]. rewrite ?app_nil_r. reflexivity.
  - exists [lit ""]. split; [now right|].
    change (skipn 4 (lit "### " ++ r)) with r.
    cbv -[app]. rewrite ?app_nil_r. reflexivity.
  - exists []. split; [now left|].
    change (skipn 2 (lit "- " ++ r)) with r.
    cbv -[app]. rewrite ?app_nil_r. reflexivity.
  - exists [lit ""]. split; [now right|].
    cbv -[app]. rewrite ?app_nil_r. reflexivity.
Qed.

Lemma for_blocks_line_blocks (py_format : json -> str) (lines : list str) :
  Forall (fun l => strip l = l /\ head_solid l /\ tail_solid l /\ ~ In NL l)
    lines ->
  forall md_lines,
    exists added,
      for_blocks py_format (map line_block lines) md_lines
      = Ok (md_lines ++ added)
      /\ filter nonempty (map strip added) = lines
      /\ Forall (fun l => ~ In NL l) added.
Proof.
  induction 1 as [|l ls (Hs & Hh & _ & Hn) _ IH]; intros md_lines.
  - exists []. cbn [map for_blocks]. rewrite app_nil_r. repeat split.
    constructor.
  - cbn [map for_blocks].
    destruct (convert_line_block py_format md_lines l) as (trail & Ht & ->).
    cbn [bind]. destruct (IH (md_lines ++ l :: trail)) as (added & -> & Hf & Hno).
    exists ((l :: trail) ++ added). rewrite <- app_assoc. split; [reflexivity|].
    assert (Hl : nonempty (strip l) = true) by now apply head_solid_not_blank.
    split.
    + destruct Ht as [-> | ->].
      * cbn [app]. rewrite solid_cons, Hl, Hs, Hf. reflexivity.
      * cbn [app]. rewrite solid_cons, Hl, Hs, solid_cons.
        change (strip (lit "")) with (@nil char). cbn [nonempty app].
        now rewrite Hf.
    + apply Forall_app. split; [|exact Hno].
      constructor; [exact Hn|]. destruct Ht as [-> | ->]; repeat constructor.
      intros [].
Qed.

(** X4. [_markdown_to_blocks] gives one block for every line of the text
    that is not blank, in the order of the lines, made from the line
    without the whitespace around it. Stripping the whole text first, as
    the function does, changes none of them; the number of blocks is the
    number of lines that are not blank. *)
Theorem markdown_to_blocks_per_line :
  forall markdown : str,
    _markdown_to_blocks markdown
    = map line_block (filter nonempty (map strip (split markdown NL)))
    /\ length (_markdown_to_blocks markdown)
       = length (filter (fun l => nonempty (strip l)) (split markdown NL)).
Proof.
  intros markdown. rewrite markdown_to_blocks_solid. split; [reflexivity|].
  rewrite length_map. unfold solid_lines.
  induction (split markdown NL) as [|l ls IH]; [reflexivity|].
  cbn [map filter]. destruct (nonempty (strip l)); simpl; now rewrite IH.
Qed.

(** X5. Every block of [_markdown_to_blocks] is a block of one text run
    whose type is [heading_1], [heading_2], [heading_3],
    [bulleted_list_item] or [paragraph]; the text is not empty, holds no
    newline and does not end with whitespace. No numbered item and no
    code block is ever returned. *)
Theorem markdown_to_blocks_shape :
  forall markdown : str,
    Forall (fun block =>
              exists type content,
                block = text_block type content
                /\ In type server_types
                /\ content <> [] /\ tail_solid content /\ ~ In NL content
                /\ type <> lit "numbered_list_item" /\ type <> lit "code")
      (_markdown_to_blocks markdown).
Proof.
  intros markdown. rewrite markdown_to_blocks_solid.
  pose proof (solid_lines_solid markdown) as H.
  induction H as [|l ls (_ & _ & Ht & Hn) _ IH]; [constructor|].
  cbn [map]. constructor; [|exact IH].
  destruct (line_block_shape l Ht Hn) as (type & content & E & Hin & Hc & Hnl).
  exists type, content. repeat split; try assumption.
  - destruct Hc as (u & d & -> & _). now destruct u.
  - intros ->. simpl in Hin.
    repeat destruct Hin as [Hin | Hin]; try discriminate Hin. exact Hin.
  - intros ->. simpl in Hin.
    repeat destruct Hin as [Hin | Hin]; try discriminate Hin. exact Hin.
Qed.

(** X6. [_markdown_to_blocks] returns no block exactly when the text is
    empty or made of whitespace only. *)
Theorem markdown_to_blocks_empty :
  forall markdown : str,
    _markdown_to_blocks markdown = [] <-> strip markdown = [].
Proof.
  intros markdown. unfold _markdown_to_blocks. split.
  - intros H. destruct (strip markdown) as [|c t] eqn:E; [reflexivity|].
    exfalso.
    assert (Hne : strip markdown <> []) by (rewrite E; discriminate).
    destruct (trimmed_solid (strip markdown) (strip_idem markdown) Hne)
      as [(c' & t' & E' & Hc) _].
    rewrite E in E'. injection E' as <- <-.
    rewrite split_cons in H.
    destruct (c =? NL)%N eqn:Ec.
    { apply N.eqb_eq in Ec. subst c. rewrite isspace_NL in Hc. discriminate. }
    rewrite for_lines_spec, solid_cons in H. cbn [app] in H.
    rewrite (head_solid_not_blank (c :: hd [] (split t NL))) in H
      by (now exists c, (hd [] (split t NL))).
    discriminate H.
  - intros ->. reflexivity.
Qed.

(** X7. The blocks of [_markdown_to_blocks] go through the serializer and
    back: [convert_blocks_to_markdown] never raises on them, and
    [_markdown_to_blocks] reads the same blocks from the markdown it
    writes. *)
Theorem markdown_to_blocks_round_trip :
  forall (py_format : json -> str) (markdown : str),
    exists md,
      convert_blocks_to_markdown py_format (_markdown_to_blocks markdown) None
      = Ok md
      /\ _markdown_to_blocks md = _markdown_to_blocks markdown.
Proof.
  intros py_format markdown. unfold convert_blocks_to_markdown.
  rewrite (markdown_to_blocks_solid markdown).
  destruct (for_blocks_line_blocks py_format (solid_lines markdown)
              (solid_lines_solid markdown) (title_lines None))
    as (added & -> & Hf & Hno).
  cbn [bind title_lines app]. exists (join [NL] added). split; [reflexivity|].
  rewrite markdown_to_blocks_solid. f_equal. unfold solid_lines at 1.
  destruct added as [|a added].
  - rewrite <- Hf. reflexivity.
  - rewrite split_join; [exact Hf | discriminate | exact Hno].
Qed.

(** ** What the parser returns, and the serializer on it *)

Lemma nonempty_not_nil (s : str) : nonempty s = true -> s <> [].
Proof. destruct s; [discriminate | discriminate]. Qed.

Lemma classify_tidy (line : str) :
  ~ In NL line ->
  match classify line with
  | Block block =>
      exists kind content,
        block = to_json (TextBlock kind content)
        /\ tidy (TextBlock kind content)
  | Fence language =>
      language <> [] /\ strip language = language /\ ~ In NL language
  | Blank => True
  end.
Proof.
  intros Hn. unfold classify.
  assert (Hskip : forall n, ~ In NL (strip (skipn n line))).
  { intros n H. apply Hn. apply in_strip in H. now apply in_skipn in H. }
  destruct (startswith line (lit "## "));
    [exists Heading_2, (strip (skipn 3 line)); split; [reflexivity|];
     repeat split; [apply strip_idem | apply Hskip | discriminate]|].
  destruct (startswith line (lit "### "));
    [exists Heading_3, (strip (skipn 4 line)); split; [reflexivity|];
     repeat split; [apply strip_idem | apply Hskip | discriminate]|].
  destruct (startswith line (lit "- "));
    [exists Bulleted, (strip (skipn 2 line)); split; [reflexivity|];
     repeat split; [apply strip_idem | apply Hskip | discriminate]|].
  destruct (nonempty (strip line) && first_is_digit line
            && contains line (lit ". ")).
  { exists Numbered, (strip (after_first line (lit ". "))).
    split; [reflexivity|].
    repeat split; [apply strip_idem | | discriminate].
    intros H. apply in_strip in H. unfold after_first in H.
    destruct (find line (lit ". ")); [|contradiction].
    apply Hn. now apply in_skipn in H. }
  destruct (startswith line fence).
  { destruct (nonempty (strip (skipn 3 line))) eqn:E.
    - repeat split; [now apply nonempty_not_nil | apply strip_idem
                    | apply Hskip].
    - repeat split; [discriminate|].
      intros H. vm_compute in H. intuition discriminate. }
  destruct (nonempty (strip line)) eqn:E; [|exact I].
  exists Paragraph, (strip line). split; [reflexivity|].
  repeat split; [apply strip_idem | | intros _; now apply nonempty_not_nil].
  intros H. apply Hn. now apply in_strip.
Qed.

Lemma code_lines_tidy (code_lines : list str) :
  Forall (fun l => in_fence l = true /\ ~ In NL l) code_lines ->
  Forall (fun line => startswith line fence = false)
    (split (join [NL] code_lines) NL).
Proof.
  intros H. destruct code_lines as [|l ls].
  - repeat constructor.
  - rewrite split_join; [|discriminate|].
    + eapply Forall_impl; [|exact H]. intros a [Ha _].
      unfold in_fence in Ha. now apply negb_true_iff in Ha.
    + eapply Forall_impl; [|exact H]. now intros a [_ Ha].
Qed.

Lemma scan_lines_tidy (lines : list str) :
  Forall (fun l => ~ In NL l) lines ->
  forall open_fence,
    match open_fence with
    | Some (language, code_lines) =>
        (language <> [] /\ strip language = language /\ ~ In NL language)
        /\ Forall (fun l => in_fence l = true /\ ~ In NL l) code_lines
    | None => True
    end ->
    exists doc,
      scan_lines open_fence lines = map to_json doc /\ Forall tidy doc.
Proof.
  induction 1 as [|line rest Hl _ IH]; intros open_fence Hopen.
  - destruct open_fence as [[language code_lines]|]; cbn [scan_lines].
    + destruct Hopen as ((H1 & H2 & H3) & Hc).
      exists [CodeBlock (join [NL] code_lines) language].
      split; [reflexivity|]. constructor; [|constructor].
      repeat split; try assumption. now apply code_lines_tidy.
    + now exists [].
  - destruct open_fence as [[language code_lines]|]; cbn [scan_lines].
    + destruct Hopen as ((H1 & H2 & H3) & Hc).
      destruct (in_fence line) eqn:E.
      * apply IH. split; [now repeat split|].
        apply Forall_app. split; [exact Hc|]. now repeat constructor.
      * destruct (IH (@None (str * list str)) I) as (doc & -> & Hdoc).
        exists (CodeBlock (join [NL] code_lines) language :: doc).
        split; [reflexivity|]. constructor; [|exact Hdoc].
        repeat split; try assumption. now apply code_lines_tidy.
    + pose proof (classify_tidy line Hl) as Hc.
      destruct (classify line) as [block|language|].
      * destruct Hc as (kind & content & -> & Ht).
        destruct (IH (@None (str * list str)) I) as (doc & -> & Hdoc).
        exists (TextBlock kind content :: doc). split; [reflexivity|].
        now constructor.
      * apply IH. split; [exact Hc | constructor].
      * now apply (IH (@None (str * list str))).
Qed.

Lemma title_scan_tidy (lines : list str) :
  Forall (fun l => ~ In NL l) lines ->
  forall i title idx,
    title_scan lines i = Some (title, idx) ->
    strip title = title /\ ~ In NL title.
Proof.
  induction 1 as [|line rest Hl _ IH]; intros i title idx; cbn [title_scan].
  - discriminate.
  - destruct (startswith line (lit "# ")).
    + intros Heq.
      assert (Et : title = strip (skipn 2 line)) by congruence.
      rewrite Et. split; [apply strip_idem|].
      intros H. apply Hl. apply in_strip in H. now apply in_skipn in H.
    + apply IH.
Qed.

Lemma Forall_skipn {A : Type} (P : A -> Prop) (n : nat) (l : list A) :
  Forall P l -> Forall P (skipn n l).
Proof.
  intros H. rewrite <- (firstn_skipn n l) in H.
  now apply Forall_app in H.
Qed.

Lemma parse_tidy (md : str) :
  exists doc,
    parse_markdown_to_blocks md
    = Ok (map to_json doc, title_of (split (strip md) NL))
    /\ Forall tidy doc.
Proof.
  rewrite parse_spec. cbv zeta.
  set (lines := split (strip md) NL).
  assert (Hl : Forall (fun l => ~ In NL l) lines)
    by apply split_lines_no_sep.
  destruct (scan_lines_tidy (skipn (content_start_idx lines) lines)
              (Forall_skipn _ _ _ Hl) None I) as (doc & Hdoc & Ht).
  exists doc. unfold body_blocks.
  change (scan_lines None (skipn (content_start_idx lines) lines)
          = map to_json doc) in Hdoc.
  rewrite Hdoc. now split.
Qed.

(** X8. The blocks [parse_markdown_to_blocks] returns are tidy: each is a
    block of one text run of the six parser types; the text of a
    heading, an item or a paragraph has no whitespace around it and no
    newline, that of a paragraph is not empty; the language of a code
    block is not empty, stripped and on one line, and no line of its
    code starts with the fence. The title is stripped and on one line. *)
Theorem parser_output_tidy :
  forall md : str,
    exists doc title,
      parse_markdown_to_blocks md = Ok (map to_json doc, title)
      /\ Forall tidy doc /\ strip title = title /\ ~ In NL title.
Proof.
  intros md. destruct (parse_tidy md) as (doc & Hparse & Hdoc).
  exists doc, (title_of (split (strip md) NL)).
  split; [exact Hparse|]. split; [exact Hdoc|].
  unfold title_of.
  destruct (title_scan (split (strip md) NL) 0) as [[title idx]|] eqn:E.
  - exact (title_scan_tidy _ (split_lines_no_sep (strip md) NL)
             0 title idx E).
  - split; [reflexivity | intros []].
Qed.

(** X9. The serializer never raises on what the parser returned: for every
    text, [convert_blocks_to_markdown] of the blocks and the title that
    [parse_markdown_to_blocks] gives returns a markdown text, the same
    whatever formatter writes the values that are not strings. *)
Theorem serializer_total_on_parser_output :
  forall md : str,
    exists blocks title out,
      parse_markdown_to_blocks md = Ok (blocks, title)
      /\ forall py_format,
           convert_blocks_to_markdown py_format blocks (Some title) = Ok out.
Proof.
  intros md. destruct (parse_tidy md) as (doc & -> & _).
  set (title := title_of (split (strip md) NL)).
  exists (map to_json doc), title,
    (join [NL] (title_lines (Some title) ++ document_lines doc)).
  split; [reflexivity|]. intros py_format.
  unfold convert_blocks_to_markdown. rewrite for_blocks_canonical.
  reflexivity.
Qed.

Lemma written_alike_block (py_format : json -> str) (block1 block2 : json) :
  (forall md_lines,
      convert_block py_format md_lines block1
      = convert_block py_format md_lines block2) ->
  written_alike py_format block1 block2.
Proof.
  intros H before after title. unfold convert_blocks_to_markdown.
  rewrite !for_blocks_app. cbn [for_blocks].
  destruct (for_blocks py_format before (title_lines title));
    cbn [bind]; try reflexivity.
  now rewrite H.
Qed.

(** X10. The serializer writes a [to_do] block as the bulleted item whose
    text starts with the checkbox, a [quote] block as the paragraph
    whose text starts with ["> "], and a [heading_1] block as the
    paragraph whose text starts with ["# "]: wherever the block stands
    in a document, the markdown is the same, so that nothing that reads
    the markdown can tell the two apart. *)
Theorem serializer_conflates :
  forall (py_format : json -> str) (content : str) (checked : bool),
    written_alike py_format (to_do_block checked content)
      (text_block (lit "bulleted_list_item")
         ((if checked then lit "[x]" else lit "[ ]") ++ lit " " ++ content))
    /\ written_alike py_format (text_block (lit "quote") content)
         (text_block (lit "paragraph") (lit "> " ++ content))
    /\ written_alike py_format (text_block (lit "heading_1") content)
         (text_block (lit "paragraph") (lit "# " ++ content)).
Proof.
  intros py_format content checked. repeat split.
  - apply written_alike_block. intros md_lines.
    rewrite (convert_block_lines _ md_lines (to_do_block _ _)).
    rewrite (convert_block_lines _ md_lines (text_block _ _)).
    destruct checked; cbv -[app]; rewrite ?app_nil_r; reflexivity.
  - apply written_alike_block. intros md_lines.
    rewrite (convert_block_lines _ md_lines (text_block (lit "quote") _)).
    rewrite (convert_block_lines _ md_lines (text_block (lit "paragraph") _)).
    cbv -[app]; rewrite ?app_nil_r; reflexivity.
  - apply written_alike_block. intros md_lines.
    rewrite (convert_block_lines _ md_lines (text_block (lit "heading_1") _)).
    rewrite (convert_block_lines _ md_lines (text_block (lit "paragraph") _)).
    cbv -[app]; rewrite ?app_nil_r; reflexivity.
Qed.

(** ** The arguments of a tool call, from the client to the server *)

Lemma dict_set_nil (key : str) (v : json) : dict_set [] key v = [(key, v)].
Proof. reflexivity. Qed.

Lemma dict_set_other (k key : str) (v' v : json) (rest : list (str * json)) :
  str_eqb k key = false ->
  dict_set ((k, v') :: rest) key v = (k, v') :: dict_set rest key v.
Proof. intros H. cbn [dict_set]. now rewrite H. Qed.

Lemma lookup_here (k key : str) (v : json) (rest : list (str * json)) :
  str_eqb k key = true -> lookup key ((k, v) :: rest) = Some v.
Proof. intros H. cbn [lookup]. now rewrite H. Qed.

Lemma lookup_other (k key : str) (v : json) (rest : list (str * json)) :
  str_eqb k key = false -> lookup key ((k, v) :: rest) = lookup key rest.
Proof. intros H. cbn [lookup]. now rewrite H. Qed.

Lemma lookup_nil (key : str) : lookup key [] = None.
Proof. reflexivity. Qed.

Lemma call_tool_cons (k : str) (v : json) (rest : list (str * json)) :
  call_tool ((k, v) :: rest)
  = if is_none v then call_tool rest else (k, v) :: call_tool rest.
Proof. unfold call_tool. cbn [filter snd]. now destruct (is_none v). Qed.

Lemma call_tool_nil : call_tool [] = [].
Proof. reflexivity. Qed.

Lemma truthy_not_none (v : json) : truthy v = true -> is_none v = false.
Proof. now destruct v. Qed.

Lemma is_none_true (v : json) : is_none v = true -> v = JNone.
Proof. now destruct v. Qed.

Ltac dict_eval :=
  repeat first
    [ rewrite dict_set_nil
    | rewrite dict_set_other by (vm_compute; reflexivity)
    | rewrite call_tool_nil
    | rewrite call_tool_cons
    | rewrite lookup_nil
    | rewrite lookup_here by (vm_compute; reflexivity)
    | rewrite lookup_other by (vm_compute; reflexivity) ].

Lemma min_100 (z : Z) :
  (if (100 <? z)%Z then JNum 100 else JNum z) = JNum (Z.min z 100).
Proof.
  destruct (Z.ltb_spec 100 z); f_equal; lia.
Qed.

(** X11. The branch [query_database] of the server caps the page size: when
    the arguments hold an integer [page_size] or none, the call of
    [databases.query] is made, with [page_size] 50 when none was given,
    without [page_size] when 0 was given, and else with the smaller of
    the given number and 100. *)
Theorem query_page_size :
  forall (arguments : list (str * json)) (size : option Z),
    lookup (lit "page_size") arguments = option_map JNum size ->
    exists params,
      query_params arguments = Ok params
      /\ lookup (lit "page_size") params
         = match size with
           | None => Some (JNum 50)
           | Some z => if (z =? 0)%Z then None
                       else Some (JNum (Z.min z 100))
           end.
Proof.
  intros arguments size H. unfold query_params, dict_get. rewrite H.
  generalize (match lookup (lit "database_id") arguments with
              | Some v => v | None => JNone end) as database_id.
  generalize (match lookup (lit "filter") arguments with
              | Some v => v | None => JNone end) as filter_criteria.
  generalize (match lookup (lit "sorts") arguments with
              | Some v => v | None => JNone end) as sorts.
  intros sorts filter_criteria database_id.
  destruct size as [z|]; cbn [option_map truthy py_min bind].
  - destruct (z =? 0)%Z; cbn [negb]; rewrite ?min_100; cbn [bind];
      destruct (truthy filter_criteria), (truthy sorts);
      eexists; (split; [reflexivity|]); dict_eval; reflexivity.
  - change (negb (50 =? 0)%Z) with true. cbv iota.
    change (100 <? 50)%Z with false. cbv iota. cbn [bind].
    destruct (truthy filter_criteria), (truthy sorts);
      eexists; (split; [reflexivity|]); dict_eval; reflexivity.
Qed.

Lemma query_page_size_witness :
  exists params,
    query_params [(lit "database_id", JStr (lit "d"));
                  (lit "page_size", JNum 500)] = Ok params
    /\ lookup (lit "page_size") params = Some (JNum 100).
Proof.
  exact (query_page_size [(lit "database_id", JStr (lit "d"));
                          (lit "page_size", JNum 500)]
           (Some 500%Z) eq_refl).
Defined.

Lemma query_database_sends (database_id filter_criteria sorts page_size : json) :
  let arguments :=
    query_database database_id filter_criteria sorts page_size in
  dict_get arguments (lit "database_id") JNone = database_id
  /\ dict_get arguments (lit "filter") JNone
     = (if truthy filter_criteria then filter_criteria else JNone)
  /\ dict_get arguments (lit "sorts") JNone
     = (if truthy sorts then sorts else JNone)
  /\ dict_get arguments (lit "page_size") (JNum 50)
     = (if truthy page_size then page_size else JNum 50).
Proof.
  cbv zeta. unfold query_database, dict_get.
  destruct (truthy filter_criteria) eqn:Hf;
    [pose proof (truthy_not_none _ Hf) as Hf'|];
    (destruct (truthy sorts) eqn:Hs;
     [pose proof (truthy_not_none _ Hs) as Hs'|]);
    (destruct (truthy page_size) eqn:Hp;
     [pose proof (truthy_not_none _ Hp) as Hp'|]);
    dict_eval; rewrite ?Hf', ?Hs', ?Hp';
    (destruct (is_none database_id) eqn:Hd;
     [apply is_none_true in Hd; subst database_id|]);
    dict_eval; repeat split; reflexivity.
Qed.

Lemma query_params_items (arguments : list (str * json)) :
  query_params arguments
  = let filter_criteria := dict_get arguments (lit "filter") JNone in
    let sorts := dict_get arguments (lit "sorts") JNone in
    let page_size := dict_get arguments (lit "page_size") (JNum 50) in
    let items :=
      [(lit "database_id", dict_get arguments (lit "database_id") JNone)]
        ++ (if truthy filter_criteria then [(lit "filter", filter_criteria)]
            else [])
        ++ (if truthy sorts then [(lit "sorts", sorts)] else []) in
    if truthy page_size then
      size <- py_min page_size 100 ;; Ok (items ++ [(lit "page_size", size)])
    else Ok items.
Proof.
  unfold query_params. cbv zeta.
  destruct (truthy (dict_get arguments (lit "filter") JNone)),
    (truthy (dict_get arguments (lit "sorts") JNone)),
    (truthy (dict_get arguments (lit "page_size") (JNum 50)));
    cbn [app]; dict_eval; try reflexivity;
    destruct (py_min (dict_get arguments (lit "page_size") (JNum 50)) 100);
    cbn [bind]; dict_eval; reflexivity.
Qed.

(** X12. A query made through the client: when the server is handed the
    arguments that [query_database] and [call_tool] of the client send,
    it calls [databases.query] with the database identifier as given,
    with the filter and the sorts when they are given and not empty, and
    always with a page size: 50 when the client was given none or 0,
    else the smaller of the given number and 100. *)
Theorem query_database_end_to_end :
  forall (database_id filter_criteria sorts : json) (page_size : option Z),
    exists params,
      query_params
        (query_database database_id filter_criteria sorts (opt_num page_size))
      = Ok params
      /\ lookup (lit "database_id") params = Some database_id
      /\ lookup (lit "filter") params
         = (if truthy filter_criteria then Some filter_criteria else None)
      /\ lookup (lit "sorts") params
         = (if truthy sorts then Some sorts else None)
      /\ lookup (lit "page_size") params
         = Some (JNum match page_size with
                      | None => 50
                      | Some z => if (z =? 0)%Z then 50 else Z.min z 100
                      end).
Proof.
  intros database_id filter_criteria sorts page_size.
  rewrite query_params_items. cbv zeta.
  destruct (query_database_sends database_id filter_criteria sorts
              (opt_num page_size)) as (-> & -> & -> & ->).
  assert (Hf : truthy (if truthy filter_criteria then filter_criteria
                       else JNone) = truthy filter_criteria)
    by now destruct (truthy filter_criteria) eqn:E.
  assert (Hs : truthy (if truthy sorts then sorts else JNone) = truthy sorts)
    by now destruct (truthy sorts) eqn:E.
  rewrite Hf, Hs. clear Hf Hs.
  destruct (truthy filter_criteria), (truthy sorts);
    (destruct page_size as [z|]; cbn [opt_num truthy];
     [destruct (z =? 0)%Z eqn:Hz; cbn [negb]|]);
    cbn [truthy py_min bind app]; rewrite ?Hz; cbn [negb];
    rewrite ?min_100; cbn [bind];
    change (negb (50 =? 0)%Z) with true; cbv iota;
    change (100 <? 50)%Z with false; cbv iota; cbn [bind];
    (eexists; split; [reflexivity|]); dict_eval; repeat split; reflexivity.
Qed.

(** X13. A search made through the client: when the server is handed the
    arguments that [search_notion] and [call_tool] of the client send,
    it calls [search] with the stripped query, the empty string when the
    client was given no query, and with the filter [None] unless the
    client was given the type ["page"] or ["database"]; the filter is
    then the [dict] whose key ["object"] holds the whole filter of the
    client, [{"property": "object", "value": filter_type}]. *)
Theorem search_notion_end_to_end :
  forall query filter_type : option str,
    search_params (search_notion query filter_type)
    = [(lit "query",
        JStr match query with Some q => strip q | None => lit "" end);
       (lit "filter",
        if eq_str (opt_str filter_type) (lit "page")
           || eq_str (opt_str filter_type) (lit "database")
        then JDict [(lit "object",
                     JDict [(lit "property", JStr (lit "object"));
                            (lit "value", opt_str filter_type)])]
        else JNone)].
Proof.
  intros query filter_type. unfold search_notion, search_params, dict_get.
  assert (Hq : forall q, nonempty q && nonempty (strip q) = false ->
                         strip q = lit "").
  { intros q H. apply andb_false_iff in H. destruct H as [H | H].
    - destruct q; [reflexivity | discriminate].
    - destruct (strip q); [reflexivity | discriminate]. }
  destruct (eq_str (opt_str filter_type) (lit "page")
            || eq_str (opt_str filter_type) (lit "database"));
    (destruct query as [q|];
     [destruct (nonempty q && nonempty (strip q)) eqn:E;
      [|rewrite (Hq q E)]|]);
    dict_eval; cbn [is_none]; dict_eval; reflexivity.
Qed.

(** ** [_extract_text_content] *)

Lemma text_contents_runs (runs : list json) :
  forallb run_ok runs = true ->
  exists contents,
    text_contents runs = Ok (map JStr contents)
    /\ concat contents = concat (map run_text runs).
Proof.
  induction runs as [|rt runs IH]; intros H.
  - now exists [].
  - cbn [forallb] in H. apply andb_true_iff in H. destruct H as [Hrt Hruns].
    destruct (IH Hruns) as (contents & Hc & Hcat).
    destruct rt as [| | | | |items]; try discriminate.
    cbn [text_contents py_in bind map concat run_text].
    unfold run_ok in Hrt.
    destruct (lookup (lit "text") items) as [[| | | | |text_items]|] eqn:Et;
      try discriminate.
    + cbn [py_get bind]. rewrite Et. cbn [py_get bind].
      destruct (lookup (lit "content") text_items) as [[| | |s| |]|] eqn:Ec;
        try discriminate; rewrite Hc; cbn [bind].
      * exists (s :: contents). cbn [map concat]. now rewrite Hcat.
      * exists (lit "" :: contents). cbn [map concat]. now rewrite Hcat.
    + exists contents. now split.
Qed.

(** X14. On a list of runs of the expected shape, [_extract_text_content]
    returns the texts of the runs one after the other, in the order of
    the list: a run without ["text"], or whose ["text"] has no
    ["content"], adds nothing, and nothing is put between two runs. *)
Theorem extract_text_content_runs :
  forall runs : list json,
    forallb run_ok runs = true ->
    extract_text_content (JList runs) = Ok (concat (map run_text runs)).
Proof.
  intros runs H. unfold extract_text_content.
  destruct runs as [|rt runs]; [reflexivity|].
  cbn [truthy negb py_iter bind].
  destruct (text_contents_runs (rt :: runs) H) as (contents & -> & <-).
  cbn [bind]. apply join_values_strings.
Qed.

Lemma extract_text_content_runs_witness :
  extract_text_content
    (JList [JDict [(lit "text", JDict [(lit "content", JStr (lit "a"))])];
            JDict [(lit "type", JStr (lit "mention"))];
            JDict [(lit "text", JDict [(lit "content", JStr (lit "b"))])]])
  = Ok (lit "ab").
Proof.
  exact (extract_text_content_runs
           [JDict [(lit "text", JDict [(lit "content", JStr (lit "a"))])];
            JDict [(lit "type", JStr (lit "mention"))];
            JDict [(lit "text", JDict [(lit "content", JStr (lit "b"))])]]
           eq_refl).
Defined.

Lemma text_contents_chars (s : str) :
  text_contents (map (fun c => JStr [c]) s) = Ok [].
Proof.
  induction s as [|c s IH]; [reflexivity|].
  cbn [map text_contents py_in].
  replace (contains [c] (lit "text")) with false; [exact IH|].
  cbv -[N.eqb]. now destruct (116 =? c)%N.
Qed.

(** X15. Given a string where the list of runs is expected,
    [_extract_text_content] raises nothing and returns the empty text,
    whatever the string. *)
Theorem extract_text_content_of_string :
  forall s : str, extract_text_content (JStr s) = Ok (lit "").
Proof.
  intros s. unfold extract_text_content.
  destruct s as [|c s]; [reflexivity|].
  cbn [truthy nonempty negb py_iter bind].
  now rewrite text_contents_chars.
Qed.
